(** * FirewallD: the D-Bus facade of the firewall daemon

    A shallow embedding of [src/firewall/server/firewalld.py] (class
    [FirewallD]) and the properties of its lockdown check, its timeout
    table, its reload, its runtime-to-permanent walk and its tracked
    passthroughs.

    Conventions of the embedding:
    - a Python method that mutates [self] is a state transformer in the
      monad [M]: it returns a [result] together with the state reached;
      a raised exception keeps every mutation done before the [raise];
    - the dicts [self._timeouts] and [self._timeouts[zone]] are [gmap]s;
    - [GLib] (the main loop) is a counter of source ids and a [gmap] of
      the live timeout sources, each holding its bound callback;
    - D-Bus signals are appended to the trace [signals] when emitted;
    - [dbus_to_python] is the identity on well-typed arguments and the
      [log.debug*] calls are dropped;
    - [@dbus_handle_exceptions] re-raises a [FirewallError] over the bus
      with its code and message: it is transparent here. *)

From stdpp Require Import base numbers strings pretty list gmap fin_maps.

Local Open Scope string_scope.
Local Open Scope list_scope.

(** ** Errors *)

Inductive error_code :=
| INVALID_ZONE | INVALID_SERVICE | INVALID_ICMPTYPE | INVALID_RULE
| ZONE_CONFLICT | ALREADY_ENABLED | NOT_ENABLED | UNKNOWN_INTERFACE
| UNKNOWN_SOURCE | ACCESS_DENIED | RT_TO_PERM_FAILED | COMMAND_FAILED.

Inductive pk_action :=
| PK_ACTION_ALL | PK_ACTION_INFO | PK_ACTION_CONFIG | PK_ACTION_CONFIG_INFO
| PK_ACTION_DIRECT | PK_ACTION_DIRECT_INFO
| PK_ACTION_POLICIES | PK_ACTION_POLICIES_INFO.

Inductive exn :=
| FirewallError (code : error_code) (msg : string)
| KeyError
| NotAuthorizedException (action : pk_action)
| Exception (msg : string).

Inductive result (A : Type) :=
| Ok (a : A)
| Raise (e : exn).
Arguments Ok {A} a.
Arguments Raise {A} e.

#[global] Instance error_code_eq_dec : EqDecision error_code.
Proof. solve_decision. Defined.
#[global] Instance pk_action_eq_dec : EqDecision pk_action.
Proof. solve_decision. Defined.
#[global] Instance exn_eq_dec : EqDecision exn.
Proof. solve_decision. Defined.

(** ** Values handed to the lockdown whitelist *)

Inductive pyval :=
| VNone
| VStr (s : string)
| VInt (n : Z).

#[global] Instance pyval_eq_dec : EqDecision pyval.
Proof. solve_decision. Defined.

(** ** The firewall core [self.fw] *)

(** Modelled from the spec: the rich-rule parser and AST live in
    [firewall.core.rich]; a parsed rule is represented by its serialised
    canonical text, so that equality of rules is equality of that text. *)
Definition RichRule := string.

(** Modelled from the spec: one enabled element of a zone of
    [firewall.core.fw_zone], section 3; the constructors are the element
    kinds of the zone interface (rich rule, service, port, protocol,
    masquerade, forward port, icmp block). *)
Inductive entry :=
| ERichRule (obj : RichRule)
| EService (service : string)
| EPort (port protocol : string)
| EProtocol (protocol : string)
| EMasquerade
| EForwardPort (port protocol toport toaddr : string)
| EIcmpBlock (icmp : string).

#[global] Instance entry_eq_dec : EqDecision entry.
Proof. solve_decision. Defined.

(** Modelled from the spec: a zone of [firewall.core.fw_zone], section 3:
    its interfaces, its sources and its enabled elements, each at most
    once, in insertion order. *)
Record Zone := {
  z_interfaces : list string;
  z_sources : list string;
  z_entries : list entry
}.

(** Modelled from the spec: the lockdown whitelist of
    [firewall.core.fw_policies], section 3: four independent sets. *)
Record LockdownWhitelist := {
  wl_commands : list string;
  wl_uids : list Z;
  wl_users : list string;
  wl_contexts : list string
}.

(** Modelled from the spec: the in-memory policy of [firewall.core.fw]
    (class [Firewall] with its [zone], [direct] and [policies] members),
    sections 3 and 4.1: zones by name, the default zone, the known services
    and icmp types, the tracked passthroughs in insertion order, the
    lockdown switch and the lockdown whitelist. *)
Record Firewall := {
  default_zone : string;
  zones : gmap string Zone;
  services : list string;
  icmptypes : list string;
  passthroughs : list (string * list string);
  lockdown : bool;
  lockdown_whitelist : LockdownWhitelist
}.

Definition set_zones (f : gmap string Zone → gmap string Zone) (fw : Firewall) : Firewall :=
  {| default_zone := default_zone fw; zones := f (zones fw);
     services := services fw; icmptypes := icmptypes fw;
     passthroughs := passthroughs fw; lockdown := lockdown fw;
     lockdown_whitelist := lockdown_whitelist fw |}.

Definition set_passthroughs (l : list (string * list string)) (fw : Firewall) : Firewall :=
  {| default_zone := default_zone fw; zones := zones fw;
     services := services fw; icmptypes := icmptypes fw;
     passthroughs := l; lockdown := lockdown fw;
     lockdown_whitelist := lockdown_whitelist fw |}.

Definition set_entries (l : list entry) (z : Zone) : Zone :=
  {| z_interfaces := z_interfaces z; z_sources := z_sources z; z_entries := l |}.

Definition set_interfaces (l : list string) (z : Zone) : Zone :=
  {| z_interfaces := l; z_sources := z_sources z; z_entries := z_entries z |}.

Definition set_sources (l : list string) (z : Zone) : Zone :=
  {| z_interfaces := z_interfaces z; z_sources := l; z_entries := z_entries z |}.

(** Modelled from the spec: [fw.check_zone], section 4.1: the empty zone
    name means the default zone, and a zone that is named must exist. *)
Definition check_zone (zone : string) (fw : Firewall) : result string :=
  let _zone := if decide (zone = "") then default_zone fw else zone in
  match zones fw !! _zone with
  | Some _ => Ok _zone
  | None => Raise (FirewallError INVALID_ZONE _zone)
  end.

(** Modelled from the spec: services and icmp types are immutable at
    runtime and an element naming an unknown one is refused. *)
Definition check_entry (e : entry) (fw : Firewall) : result unit :=
  match e with
  | EService service =>
      if decide (service ∈ services fw) then Ok tt
      else Raise (FirewallError INVALID_SERVICE service)
  | EIcmpBlock icmp =>
      if decide (icmp ∈ icmptypes fw) then Ok tt
      else Raise (FirewallError INVALID_ICMPTYPE icmp)
  | _ => Ok tt
  end.

(** Modelled from the spec: the per-element mutators of [fw.zone]
    ([add_service], [add_port], [add_rule], ...), section 4.1: validate
    first, then apply; an element is in a zone at most once; the resolved
    zone name is returned. *)
Definition zone_add (zone : string) (e : entry) (fw : Firewall) : result (string * Firewall) :=
  match check_zone zone fw with
  | Raise err => Raise err
  | Ok _zone =>
    match check_entry e fw with
    | Raise err => Raise err
    | Ok _ =>
      let z := default (Build_Zone [] [] []) (zones fw !! _zone) in
      if decide (e ∈ z_entries z) then Raise (FirewallError ALREADY_ENABLED _zone)
      else Ok (_zone, set_zones (insert _zone (set_entries (z_entries z ++ [e]) z)) fw)
    end
  end.

(** Modelled from the spec: the per-element removers of [fw.zone]
    ([remove_service], [remove_port], [remove_rule], ...): an element
    that is not enabled is [NOT_ENABLED]; the resolved zone name is
    returned. *)
Definition zone_remove (zone : string) (e : entry) (fw : Firewall) : result (string * Firewall) :=
  match check_zone zone fw with
  | Raise err => Raise err
  | Ok _zone =>
      let z := default (Build_Zone [] [] []) (zones fw !! _zone) in
      if decide (e ∈ z_entries z)
      then Ok (_zone, set_zones (insert _zone (set_entries (filter (λ x, x ≠ e) (z_entries z)) z)) fw)
      else Raise (FirewallError NOT_ENABLED _zone)
  end.

(** Modelled from the spec: the membership queries of [fw.zone]
    ([query_service], [query_port], ...), section 4.1: they answer
    [false] for an unknown zone. *)
Definition zone_query (zone : string) (e : entry) (fw : Firewall) : bool :=
  match check_zone zone fw with
  | Raise _ => false
  | Ok _zone =>
      match zones fw !! _zone with
      | Some z => bool_decide (e ∈ z_entries z)
      | None => false
      end
  end.

(** Modelled from the spec: [fw.zone.get_zone_of_interface] and
    [fw.zone.get_zone_of_source]: the zone that holds the interface or
    source, if any. *)
Definition get_zone_of_interface (interface : string) (fw : Firewall) : option string :=
  fst <$> find (λ p, bool_decide (interface ∈ z_interfaces p.2)) (map_to_list (zones fw)).

Definition get_zone_of_source (source : string) (fw : Firewall) : option string :=
  fst <$> find (λ p, bool_decide (source ∈ z_sources p.2)) (map_to_list (zones fw)).

(** Modelled from the spec: [fw.zone.add_interface], section 4.1: an
    interface belongs to at most one zone; adding one that is bound to
    another zone is a [ZONE_CONFLICT]. *)
Definition add_interface (zone interface : string) (fw : Firewall) : result (string * Firewall) :=
  match check_zone zone fw with
  | Raise err => Raise err
  | Ok _zone =>
      match get_zone_of_interface interface fw with
      | Some zoi =>
          if decide (zoi = _zone) then Raise (FirewallError ALREADY_ENABLED interface)
          else Raise (FirewallError ZONE_CONFLICT interface)
      | None =>
          let z := default (Build_Zone [] [] []) (zones fw !! _zone) in
          Ok (_zone, set_zones (insert _zone (set_interfaces (z_interfaces z ++ [interface]) z)) fw)
      end
  end.

Definition drop_interface (interface : string) (z : Zone) : Zone :=
  set_interfaces (filter (λ x, x ≠ interface) (z_interfaces z)) z.

Definition drop_source (source : string) (z : Zone) : Zone :=
  set_sources (filter (λ x, x ≠ source) (z_sources z)) z.

(** Modelled from the spec: [fw.zone.change_zone_of_interface], section
    4.1: remove-then-add in one step. *)
Definition change_zone_of_interface (zone interface : string) (fw : Firewall) : result (string * Firewall) :=
  match check_zone zone fw with
  | Raise err => Raise err
  | Ok _zone =>
      let zs := drop_interface interface <$> zones fw in
      let z := default (Build_Zone [] [] []) (zs !! _zone) in
      Ok (_zone, set_zones (λ _, <[_zone := set_interfaces (z_interfaces z ++ [interface]) z]> zs) fw)
  end.

(** Modelled from the spec: [fw.zone.remove_interface]; the meaning of
    the empty zone is the one that the docstring of
    [FirewallD.removeInterface] gives: the interface is removed from the
    zone it belongs to. *)
Definition remove_interface (zone interface : string) (fw : Firewall) : result (string * Firewall) :=
  match get_zone_of_interface interface fw with
  | None => Raise (FirewallError UNKNOWN_INTERFACE interface)
  | Some zoi =>
      match (if decide (zone = "") then Ok zoi else check_zone zone fw) with
      | Raise err => Raise err
      | Ok _zone =>
          if decide (zoi = _zone)
          then Ok (_zone, set_zones (fmap (drop_interface interface)) fw)
          else Raise (FirewallError ZONE_CONFLICT interface)
      end
  end.

(** Modelled from the spec: [fw.zone.add_source] and
    [fw.zone.change_zone_of_source], as for interfaces. *)
Definition add_source (zone source : string) (fw : Firewall) : result (string * Firewall) :=
  match check_zone zone fw with
  | Raise err => Raise err
  | Ok _zone =>
      match get_zone_of_source source fw with
      | Some zos =>
          if decide (zos = _zone) then Raise (FirewallError ALREADY_ENABLED source)
          else Raise (FirewallError ZONE_CONFLICT source)
      | None =>
          let z := default (Build_Zone [] [] []) (zones fw !! _zone) in
          Ok (_zone, set_zones (insert _zone (set_sources (z_sources z ++ [source]) z)) fw)
      end
  end.

Definition change_zone_of_source (zone source : string) (fw : Firewall) : result (string * Firewall) :=
  match check_zone zone fw with
  | Raise err => Raise err
  | Ok _zone =>
      let zs := drop_source source <$> zones fw in
      let z := default (Build_Zone [] [] []) (zs !! _zone) in
      Ok (_zone, set_zones (λ _, <[_zone := set_sources (z_sources z ++ [source]) z]> zs) fw)
  end.

(** Modelled from the spec: [fw.zone.remove_source]; the meaning of the
    empty zone is the one that the docstring of [FirewallD.removeSource]
    gives: the source is removed from the zone it belongs to. *)
Definition remove_source (zone source : string) (fw : Firewall) : result (string * Firewall) :=
  match get_zone_of_source source fw with
  | None => Raise (FirewallError UNKNOWN_SOURCE source)
  | Some zos =>
      match (if decide (zone = "") then Ok zos else check_zone zone fw) with
      | Raise err => Raise err
      | Ok _zone =>
          if decide (zos = _zone)
          then Ok (_zone, set_zones (fmap (drop_source source)) fw)
          else Raise (FirewallError ZONE_CONFLICT source)
      end
  end.

(** Modelled from the spec: [fw.direct.add_passthrough],
    [remove_passthrough], [query_passthrough] and [get_all_passthroughs],
    section 3: the tracked passthroughs are recorded and enumerable; a
    passthrough is tracked at most once. *)
Definition add_passthrough (ipv : string) (args : list string) (fw : Firewall) : result (unit * Firewall) :=
  if decide ((ipv, args) ∈ passthroughs fw)
  then Raise (FirewallError ALREADY_ENABLED ipv)
  else Ok (tt, set_passthroughs (passthroughs fw ++ [(ipv, args)]) fw).

Definition remove_passthrough (ipv : string) (args : list string) (fw : Firewall) : result (unit * Firewall) :=
  if decide ((ipv, args) ∈ passthroughs fw)
  then Ok (tt, set_passthroughs (filter (λ p, p ≠ (ipv, args)) (passthroughs fw)) fw)
  else Raise (FirewallError NOT_ENABLED ipv).

Definition query_passthrough (ipv : string) (args : list string) (fw : Firewall) : bool :=
  bool_decide ((ipv, args) ∈ passthroughs fw).

Definition get_all_passthroughs (fw : Firewall) : list (string * list string) :=
  passthroughs fw.

(** Modelled from the spec: [fw.policies.query_lockdown] and
    [fw.policies.access_check], section 3: the whitelist is four
    independent sets and a value matches when it is in the set that the
    key names. *)
Definition query_lockdown (fw : Firewall) : bool := lockdown fw.

Definition access_check (key : string) (value : pyval) (fw : Firewall) : bool :=
  let wl := lockdown_whitelist fw in
  match value with
  | VStr s =>
      if decide (key = "context") then bool_decide (s ∈ wl_contexts wl)
      else if decide (key = "user") then bool_decide (s ∈ wl_users wl)
      else if decide (key = "command") then bool_decide (s ∈ wl_commands wl)
      else false
  | VInt n =>
      if decide (key = "uid") then bool_decide (n ∈ wl_uids wl) else false
  | VNone => false
  end.

(** ** The timeout table, the main loop and the bus *)

(** A key of [self._timeouts[zone]]: a string (service, protocol, icmp
    type, rich-rule text, ["masquerade"]), a pair [(port, protocol)] or a
    4-tuple [(port, protocol, toport, toaddr)]. *)
Inductive tkey :=
| KStr (s : string)
| KPair (a b : string)
| KQuad (a b c d : string).

#[global] Instance tkey_eq_dec : EqDecision tkey.
Proof. solve_decision. Defined.

Definition tkey_to_sum (k : tkey) : string + (string * string + string * string * string * string) :=
  match k with
  | KStr s => inl s
  | KPair a b => inr (inl (a, b))
  | KQuad a b c d => inr (inr (a, b, c, d))
  end.

Definition tkey_of_sum (x : string + (string * string + string * string * string * string)) : tkey :=
  match x with
  | inl s => KStr s
  | inr (inl (a, b)) => KPair a b
  | inr (inr (a, b, c, d)) => KQuad a b c d
  end.

#[global] Instance tkey_countable : Countable tkey :=
  inj_countable' tkey_to_sum tkey_of_sum
    (λ k, match k with
          | KStr _ | KPair _ _ | KQuad _ _ _ _ => eq_refl
          end).

(** The bound method and arguments given to [GLib.timeout_add_seconds]. *)
Inductive callback :=
| CbRichRule (zone rule : string)
| CbService (zone service : string)
| CbPort (zone port protocol : string)
| CbProtocol (zone protocol : string)
| CbMasquerade (zone : string)
| CbForwardPort (zone port protocol toport toaddr : string)
| CbIcmpBlock (zone icmp : string) (sender : option string).

#[global] Instance callback_eq_dec : EqDecision callback.
Proof. solve_decision. Defined.

(** The GLib main loop: source ids are handed out by a counter; a live
    timeout source holds its interval in seconds and its callback. *)
Record GLib := {
  next_id : nat;
  sources : gmap nat (Z * callback)
}.

Inductive signal :=
| Reloaded
| InterfaceAdded (zone interface : string)
| ZoneChanged (zone interface : string)
| ZoneOfInterfaceChanged (zone interface : string)
| InterfaceRemoved (zone interface : string)
| SourceAdded (zone source : string)
| ZoneOfSourceChanged (zone source : string)
| SourceRemoved (zone source : string)
| RichRuleAdded (zone rule : string) (timeout : Z)
| RichRuleRemoved (zone rule : string)
| ServiceAdded (zone service : string) (timeout : Z)
| ServiceRemoved (zone service : string)
| PortAdded (zone port protocol : string) (timeout : Z)
| PortRemoved (zone port protocol : string)
| ProtocolAdded (zone protocol : string) (timeout : Z)
| ProtocolRemoved (zone protocol : string)
| MasqueradeAdded (zone : string) (timeout : Z)
| MasqueradeRemoved (zone : string)
| ForwardPortAdded (zone port protocol toport toaddr : string) (timeout : Z)
| ForwardPortRemoved (zone port protocol toport toaddr : string)
| IcmpBlockAdded (zone icmp : string) (timeout : Z)
| IcmpBlockRemoved (zone icmp : string)
| PassthroughAdded (ipv : string) (args : list string)
| PassthroughRemoved (ipv : string) (args : list string).

#[global] Instance signal_eq_dec : EqDecision signal.
Proof. solve_decision. Defined.

(** The state of the daemon: the core, the timeout table, the main loop,
    the signals emitted so far (oldest first) and the calls made so far to
    [fw.policies.access_check] (oldest first). *)
Record FirewallD := {
  fw : Firewall;
  _timeouts : gmap string (gmap tkey nat);
  glib : GLib;
  signals : list signal;
  checks : list (string * pyval)
}.

Definition set_fw (x : Firewall) (st : FirewallD) : FirewallD :=
  {| fw := x; _timeouts := _timeouts st; glib := glib st;
     signals := signals st; checks := checks st |}.

Definition set_timeouts (t : gmap string (gmap tkey nat)) (st : FirewallD) : FirewallD :=
  {| fw := fw st; _timeouts := t; glib := glib st;
     signals := signals st; checks := checks st |}.

Definition set_glib (g : GLib) (st : FirewallD) : FirewallD :=
  {| fw := fw st; _timeouts := _timeouts st; glib := g;
     signals := signals st; checks := checks st |}.

Definition set_signals (l : list signal) (st : FirewallD) : FirewallD :=
  {| fw := fw st; _timeouts := _timeouts st; glib := glib st;
     signals := l; checks := checks st |}.

Definition set_checks (l : list (string * pyval)) (st : FirewallD) : FirewallD :=
  {| fw := fw st; _timeouts := _timeouts st; glib := glib st;
     signals := signals st; checks := l |}.

(** What the daemon gets from its collaborators outside this class: the
    rich-rule parser, the identity of a bus name ([firewall.dbus_utils]),
    the reload of the core and of the configuration objects, and the
    polkit decision. *)
Record Env := {
  Rich_Rule : string → result RichRule;
  context_of_sender : string → pyval;
  uid_of_sender : string → pyval;
  user_of_uid : pyval → pyval;
  command_of_sender : string → pyval;
  fw_reload : bool → Firewall → result Firewall;
  config_reload : Firewall → result unit;
  is_authorized : string → pk_action → bool
}.

(** ** The state and exception monad *)

Definition M (A : Type) : Type := FirewallD → result A * FirewallD.

#[global] Instance M_ret : MRet M := λ A a st, (Ok a, st).

#[global] Instance M_bind : MBind M := λ A B k m st,
  match m st with
  | (Ok a, st') => k a st'
  | (Raise e, st') => (Raise e, st')
  end.

Definition raise {A} (e : exn) : M A := λ st, (Raise e, st).

Definition gets {A} (f : FirewallD → A) : M A := λ st, (Ok (f st), st).

Definition modify (f : FirewallD → FirewallD) : M unit := λ st, (Ok tt, f st).

(** A call into the core: on success the core is replaced, on an
    exception it is left as it was. *)
Definition lift_fw {A} (f : Firewall → result (A * Firewall)) : M A := λ st,
  match f (fw st) with
  | Ok (a, x) => (Ok a, set_fw x st)
  | Raise e => (Raise e, st)
  end.

Definition lift_result {A} (r : result A) : M A := λ st, (r, st).

Definition emit (s : signal) : M unit :=
  modify (λ st, set_signals (signals st ++ [s]) st).

Fixpoint for_each {A} (l : list A) (body : A → M unit) : M unit :=
  match l with
  | [] => mret tt
  | x :: l' => body x;; for_each l' body
  end.

(** [GLib.timeout_add_seconds(interval, callback, *args)] *)
Definition timeout_add_seconds (interval : Z) (cb : callback) : M nat := λ st,
  let g := glib st in
  (Ok (next_id g),
   set_glib {| next_id := S (next_id g);
               sources := <[next_id g := (interval, cb)]> (sources g) |} st).

(** [GLib.source_remove(tag)] *)
Definition source_remove (tag : nat) : M unit :=
  modify (λ st, set_glib {| next_id := next_id (glib st);
                            sources := delete tag (sources (glib st)) |} st).

(** ** class FirewallD *)

Section FirewallD.
Variable env : Env.

(** [self.fw.policies.access_check(key, value)], recorded in [checks]. *)
Definition fw_policies_access_check (key : string) (value : pyval) : M bool := λ st,
  (Ok (access_check key value (fw st)), set_checks (checks st ++ [(key, value)]) st).

(** *** lockdown functions *)

Definition accessCheck (sender : option string) : M unit :=
  locked ← gets (λ st, query_lockdown (fw st));
  if (locked : bool) then
    match sender with
    | None =>
        (* log.error("Lockdown not possible, sender not set.") *)
        mret tt
    | Some sender =>
        let context := context_of_sender env sender in
        ok ← fw_policies_access_check "context" context;
        if (ok : bool) then mret tt else
        let uid := uid_of_sender env sender in
        ok ← fw_policies_access_check "uid" uid;
        if (ok : bool) then mret tt else
        let user := user_of_uid env uid in
        ok ← fw_policies_access_check "user" user;
        if (ok : bool) then mret tt else
        let command := command_of_sender env sender in
        ok ← fw_policies_access_check "command" command;
        if (ok : bool) then mret tt else
        raise (FirewallError ACCESS_DENIED "lockdown is enabled")
    end
  else mret tt.

(** *** timeout functions *)

Definition addTimeout (zone : string) (x : tkey) (tag : nat) : M unit :=
  modify (λ st,
    let t := _timeouts st in
    let t := match t !! zone with
             | None => <[zone := ∅]> t
             | Some _ => t
             end in
    set_timeouts (<[zone := <[x := tag]> (default ∅ (t !! zone))]> t) st).

Definition removeTimeout (zone : string) (x : tkey) : M unit :=
  t ← gets _timeouts;
  match t !! zone with
  | Some inner =>
      match inner !! x with
      | Some tag =>
          source_remove tag;;
          modify (λ st, set_timeouts (<[zone := delete x inner]> (_timeouts st)) st)
      | None => mret tt
      end
  | None => mret tt
  end.

Definition all_tags (t : gmap string (gmap tkey nat)) : list nat :=
  p ← map_to_list t; snd <$> map_to_list p.2.

Definition cleanup_timeouts : M unit :=
  t ← gets _timeouts;
  for_each (all_tags t) source_remove;;
  modify (set_timeouts ∅).

(** [del self._timeouts[zone][x]] *)
Definition del_timeout (zone : string) (x : tkey) : M unit :=
  t ← gets _timeouts;
  match t !! zone with
  | Some inner =>
      match inner !! x with
      | Some _ => modify (λ st, set_timeouts (<[zone := delete x inner]> (_timeouts st)) st)
      | None => raise KeyError
      end
  | None => raise KeyError
  end.

(** *** reload *)

Definition reload (sender : option string) : M unit :=
  lift_fw (λ x, match fw_reload env false x with
                | Ok x' => Ok (tt, x')
                | Raise e => Raise e
                end);;
  (x ← gets fw; lift_result (config_reload env x));;
  emit Reloaded.

Definition completeReload (sender : option string) : M unit :=
  lift_fw (λ x, match fw_reload env true x with
                | Ok x' => Ok (tt, x')
                | Raise e => Raise e
                end);;
  (x ← gets fw; lift_result (config_reload env x));;
  emit Reloaded.

(** *** INTERFACES *)

Definition addInterface (zone interface : string) (sender : option string) : M string :=
  accessCheck sender;;
  _zone ← lift_fw (add_interface zone interface);
  emit (InterfaceAdded _zone interface);;
  mret _zone.

(** The body of the signal method runs before the signal is sent, so the
    deprecated [ZoneChanged] leaves first. *)
Definition emit_ZoneOfInterfaceChanged (zone interface : string) : M unit :=
  emit (ZoneChanged zone interface);;
  emit (ZoneOfInterfaceChanged zone interface).

Definition changeZoneOfInterface (zone interface : string) (sender : option string) : M string :=
  accessCheck sender;;
  _zone ← lift_fw (change_zone_of_interface zone interface);
  emit_ZoneOfInterfaceChanged _zone interface;;
  mret _zone.

Definition changeZone (zone interface : string) (sender : option string) : M string :=
  changeZoneOfInterface zone interface sender.

Definition removeInterface (zone interface : string) (sender : option string) : M string :=
  accessCheck sender;;
  _zone ← lift_fw (remove_interface zone interface);
  emit (InterfaceRemoved _zone interface);;
  mret _zone.

(** *** SOURCES *)

Definition addSource (zone source : string) (sender : option string) : M string :=
  accessCheck sender;;
  _zone ← lift_fw (add_source zone source);
  emit (SourceAdded _zone source);;
  mret _zone.

Definition changeZoneOfSource (zone source : string) (sender : option string) : M string :=
  accessCheck sender;;
  _zone ← lift_fw (change_zone_of_source zone source);
  emit (ZoneOfSourceChanged _zone source);;
  mret _zone.

Definition removeSource (zone source : string) (sender : option string) : M string :=
  accessCheck sender;;
  _zone ← lift_fw (remove_source zone source);
  emit (SourceRemoved _zone source);;
  mret _zone.

(** *** RICH RULES *)

Definition disableTimedRichRule (zone rule : string) : M unit :=
  del_timeout zone (KStr rule);;
  obj ← lift_result (Rich_Rule env rule);
  lift_fw (zone_remove zone (ERichRule obj));;
  emit (RichRuleRemoved zone rule).

Definition addRichRule (zone rule : string) (timeout : Z) (sender : option string) : M string :=
  obj ← lift_result (Rich_Rule env rule);
  _zone ← lift_fw (zone_add zone (ERichRule obj));
  (if decide (0 < timeout)%Z then
     tag ← timeout_add_seconds timeout (CbRichRule _zone rule);
     addTimeout _zone (KStr rule) tag
   else mret tt);;
  emit (RichRuleAdded _zone rule timeout);;
  mret _zone.

Definition removeRichRule (zone rule : string) (sender : option string) : M string :=
  obj ← lift_result (Rich_Rule env rule);
  _zone ← lift_fw (zone_remove zone (ERichRule obj));
  removeTimeout _zone (KStr rule);;
  emit (RichRuleRemoved _zone rule);;
  mret _zone.

Definition queryRichRule (zone rule : string) (sender : option string) : M bool :=
  obj ← lift_result (Rich_Rule env rule);
  gets (λ st, zone_query zone (ERichRule obj) (fw st)).

(** *** SERVICES *)

Definition disableTimedService (zone service : string) : M unit :=
  del_timeout zone (KStr service);;
  lift_fw (zone_remove zone (EService service));;
  emit (ServiceRemoved zone service).

Definition addService (zone service : string) (timeout : Z) (sender : option string) : M string :=
  accessCheck sender;;
  _zone ← lift_fw (zone_add zone (EService service));
  (if decide (0 < timeout)%Z then
     tag ← timeout_add_seconds timeout (CbService _zone service);
     addTimeout _zone (KStr service) tag
   else mret tt);;
  emit (ServiceAdded _zone service timeout);;
  mret _zone.

Definition removeService (zone service : string) (sender : option string) : M string :=
  accessCheck sender;;
  _zone ← lift_fw (zone_remove zone (EService service));
  removeTimeout _zone (KStr service);;
  emit (ServiceRemoved _zone service);;
  mret _zone.

Definition queryService (zone service : string) (sender : option string) : M bool :=
  gets (λ st, zone_query zone (EService service) (fw st)).

(** *** PORTS *)

Definition disableTimedPort (zone port protocol : string) : M unit :=
  del_timeout zone (KPair port protocol);;
  lift_fw (zone_remove zone (EPort port protocol));;
  emit (PortRemoved zone port protocol).

Definition addPort (zone port protocol : string) (timeout : Z) (sender : option string) : M string :=
  accessCheck sender;;
  _zone ← lift_fw (zone_add zone (EPort port protocol));
  (if decide (0 < timeout)%Z then
     tag ← timeout_add_seconds timeout (CbPort _zone port protocol);
     addTimeout _zone (KPair port protocol) tag
   else mret tt);;
  emit (PortAdded _zone port protocol timeout);;
  mret _zone.

Definition removePort (zone port protocol : string) (sender : option string) : M string :=
  accessCheck sender;;
  _zone ← lift_fw (zone_remove zone (EPort port protocol));
  removeTimeout _zone (KPair port protocol);;
  emit (PortRemoved _zone port protocol);;
  mret _zone.

Definition queryPort (zone port protocol : string) (sender : option string) : M bool :=
  gets (λ st, zone_query zone (EPort port protocol) (fw st)).

(** *** PROTOCOLS *)

Definition disableTimedProtocol (zone protocol : string) : M unit :=
  del_timeout zone (KStr protocol);;
  lift_fw (zone_remove zone (EProtocol protocol));;
  emit (ProtocolRemoved zone protocol).

Definition addProtocol (zone protocol : string) (timeout : Z) (sender : option string) : M string :=
  accessCheck sender;;
  _zone ← lift_fw (zone_add zone (EProtocol protocol));
  (if decide (0 < timeout)%Z then
     tag ← timeout_add_seconds timeout (CbProtocol _zone protocol);
     addTimeout _zone (KStr protocol) tag
   else mret tt);;
  emit (ProtocolAdded _zone protocol timeout);;
  mret _zone.

Definition removeProtocol (zone protocol : string) (sender : option string) : M string :=
  accessCheck sender;;
  _zone ← lift_fw (zone_remove zone (EProtocol protocol));
  removeTimeout _zone (KStr protocol);;
  emit (ProtocolRemoved _zone protocol);;
  mret _zone.

Definition queryProtocol (zone protocol : string) (sender : option string) : M bool :=
  gets (λ st, zone_query zone (EProtocol protocol) (fw st)).

(** *** MASQUERADE *)

Definition disableTimedMasquerade (zone : string) : M unit :=
  del_timeout zone (KStr "masquerade");;
  lift_fw (zone_remove zone EMasquerade);;
  emit (MasqueradeRemoved zone).

Definition addMasquerade (zone : string) (timeout : Z) (sender : option string) : M string :=
  accessCheck sender;;
  _zone ← lift_fw (zone_add zone EMasquerade);
  (if decide (0 < timeout)%Z then
     tag ← timeout_add_seconds timeout (CbMasquerade _zone);
     addTimeout _zone (KStr "masquerade") tag
   else mret tt);;
  emit (MasqueradeAdded _zone timeout);;
  mret _zone.

Definition removeMasquerade (zone : string) (sender : option string) : M string :=
  accessCheck sender;;
  _zone ← lift_fw (zone_remove zone EMasquerade);
  removeTimeout _zone (KStr "masquerade");;
  emit (MasqueradeRemoved _zone);;
  mret _zone.

Definition queryMasquerade (zone : string) (sender : option string) : M bool :=
  gets (λ st, zone_query zone EMasquerade (fw st)).

(** *** FORWARD PORT *)

Definition disable_forward_port (zone port protocol toport toaddr : string) : M unit :=
  del_timeout zone (KQuad port protocol toport toaddr);;
  lift_fw (zone_remove zone (EForwardPort port protocol toport toaddr));;
  emit (ForwardPortRemoved zone port protocol toport toaddr).

Definition addForwardPort (zone port protocol toport toaddr : string) (timeout : Z)
    (sender : option string) : M string :=
  accessCheck sender;;
  _zone ← lift_fw (zone_add zone (EForwardPort port protocol toport toaddr));
  (if decide (0 < timeout)%Z then
     tag ← timeout_add_seconds timeout (CbForwardPort _zone port protocol toport toaddr);
     addTimeout _zone (KQuad port protocol toport toaddr) tag
   else mret tt);;
  emit (ForwardPortAdded _zone port protocol toport toaddr timeout);;
  mret _zone.

Definition removeForwardPort (zone port protocol toport toaddr : string)
    (sender : option string) : M string :=
  accessCheck sender;;
  _zone ← lift_fw (zone_remove zone (EForwardPort port protocol toport toaddr));
  removeTimeout _zone (KQuad port protocol toport toaddr);;
  emit (ForwardPortRemoved _zone port protocol toport toaddr);;
  mret _zone.

Definition queryForwardPort (zone port protocol toport toaddr : string)
    (sender : option string) : M bool :=
  gets (λ st, zone_query zone (EForwardPort port protocol toport toaddr) (fw st)).

(** *** ICMP BLOCK *)

Definition disableTimedIcmpBlock (zone icmp : string) (sender : option string) : M unit :=
  del_timeout zone (KStr icmp);;
  lift_fw (zone_remove zone (EIcmpBlock icmp));;
  emit (IcmpBlockRemoved zone icmp).

Definition addIcmpBlock (zone icmp : string) (timeout : Z) (sender : option string) : M string :=
  accessCheck sender;;
  _zone ← lift_fw (zone_add zone (EIcmpBlock icmp));
  (if decide (0 < timeout)%Z then
     tag ← timeout_add_seconds timeout (CbIcmpBlock _zone icmp sender);
     addTimeout _zone (KStr icmp) tag
   else mret tt);;
  emit (IcmpBlockAdded _zone icmp timeout);;
  mret _zone.

Definition removeIcmpBlock (zone icmp : string) (sender : option string) : M string :=
  accessCheck sender;;
  _zone ← lift_fw (zone_remove zone (EIcmpBlock icmp));
  removeTimeout _zone (KStr icmp);;
  emit (IcmpBlockRemoved _zone icmp);;
  mret _zone.

Definition queryIcmpBlock (zone icmp : string) (sender : option string) : M bool :=
  gets (λ st, zone_query zone (EIcmpBlock icmp) (fw st)).

(** *** DIRECT PASSTHROUGH (tracked) *)

Definition addPassthrough (ipv : string) (args : list string) (sender : option string) : M unit :=
  accessCheck sender;;
  lift_fw (add_passthrough ipv args);;
  emit (PassthroughAdded ipv args).

Definition removePassthrough (ipv : string) (args : list string) (sender : option string) : M unit :=
  accessCheck sender;;
  lift_fw (remove_passthrough ipv args);;
  emit (PassthroughRemoved ipv args).

Definition queryPassthrough (ipv : string) (args : list string) (sender : option string) : M bool :=
  gets (λ st, query_passthrough ipv args (fw st)).

Definition getAllPassthroughs (sender : option string) : M (list (string * list string)) :=
  gets (λ st, get_all_passthroughs (fw st)).

Definition removeAllPassthroughs (sender : option string) : M unit :=
  l ← getAllPassthroughs None;
  for_each (reverse l) (λ passthrough, removePassthrough passthrough.1 passthrough.2 None).

(** *** The main loop firing a timeout source *)

Definition run_callback (cb : callback) : M unit :=
  match cb with
  | CbRichRule zone rule => disableTimedRichRule zone rule
  | CbService zone service => disableTimedService zone service
  | CbPort zone port protocol => disableTimedPort zone port protocol
  | CbProtocol zone protocol => disableTimedProtocol zone protocol
  | CbMasquerade zone => disableTimedMasquerade zone
  | CbForwardPort zone port protocol toport toaddr =>
      disable_forward_port zone port protocol toport toaddr
  | CbIcmpBlock zone icmp sender => disableTimedIcmpBlock zone icmp sender
  end.

(** A live source whose interval elapsed is dispatched: its callback
    runs, and since every callback returns [None] (or raises), the source
    is destroyed afterwards. A tag that is not live cannot fire. *)
Definition fire (tag : nat) (st : FirewallD) : option (result unit * FirewallD) :=
  match sources (glib st) !! tag with
  | None => None
  | Some (_, cb) =>
      let '(r, st') := run_callback cb st in
      Some (r, (source_remove tag st').2)
  end.

End FirewallD.

(** ** Timed elements, uniformly

    The seven timed element kinds of the zone interface, as the arguments
    of their [add...], [remove...] and [query...] methods; the functions
    below dispatch to the methods of each kind. *)

Inductive element :=
| ElRichRule (rule : string)
| ElService (service : string)
| ElPort (port protocol : string)
| ElProtocol (protocol : string)
| ElMasquerade
| ElForwardPort (port protocol toport toaddr : string)
| ElIcmpBlock (icmp : string).

Definition add_element (env : Env) (zone : string) (el : element) (timeout : Z)
    (sender : option string) : M string :=
  match el with
  | ElRichRule rule => addRichRule env zone rule timeout sender
  | ElService service => addService env zone service timeout sender
  | ElPort port protocol => addPort env zone port protocol timeout sender
  | ElProtocol protocol => addProtocol env zone protocol timeout sender
  | ElMasquerade => addMasquerade env zone timeout sender
  | ElForwardPort port protocol toport toaddr =>
      addForwardPort env zone port protocol toport toaddr timeout sender
  | ElIcmpBlock icmp => addIcmpBlock env zone icmp timeout sender
  end.

Definition remove_element (env : Env) (zone : string) (el : element)
    (sender : option string) : M string :=
  match el with
  | ElRichRule rule => removeRichRule env zone rule sender
  | ElService service => removeService env zone service sender
  | ElPort port protocol => removePort env zone port protocol sender
  | ElProtocol protocol => removeProtocol env zone protocol sender
  | ElMasquerade => removeMasquerade env zone sender
  | ElForwardPort port protocol toport toaddr =>
      removeForwardPort env zone port protocol toport toaddr sender
  | ElIcmpBlock icmp => removeIcmpBlock env zone icmp sender
  end.

Definition query_element (env : Env) (zone : string) (el : element)
    (sender : option string) : M bool :=
  match el with
  | ElRichRule rule => queryRichRule env zone rule sender
  | ElService service => queryService zone service sender
  | ElPort port protocol => queryPort zone port protocol sender
  | ElProtocol protocol => queryProtocol zone protocol sender
  | ElMasquerade => queryMasquerade zone sender
  | ElForwardPort port protocol toport toaddr =>
      queryForwardPort zone port protocol toport toaddr sender
  | ElIcmpBlock icmp => queryIcmpBlock zone icmp sender
  end.

(** The key under which the kind's [add...] records its timer. *)
Definition timeout_key (el : element) : tkey :=
  match el with
  | ElRichRule rule => KStr rule
  | ElService service => KStr service
  | ElPort port protocol => KPair port protocol
  | ElProtocol protocol => KStr protocol
  | ElMasquerade => KStr "masquerade"
  | ElForwardPort port protocol toport toaddr => KQuad port protocol toport toaddr
  | ElIcmpBlock icmp => KStr icmp
  end.

(** The callback that the kind's [add...] binds. *)
Definition timeout_callback (zone : string) (el : element) (sender : option string) : callback :=
  match el with
  | ElRichRule rule => CbRichRule zone rule
  | ElService service => CbService zone service
  | ElPort port protocol => CbPort zone port protocol
  | ElProtocol protocol => CbProtocol zone protocol
  | ElMasquerade => CbMasquerade zone
  | ElForwardPort port protocol toport toaddr =>
      CbForwardPort zone port protocol toport toaddr
  | ElIcmpBlock icmp => CbIcmpBlock zone icmp sender
  end.

Definition added_signal (zone : string) (el : element) (timeout : Z) : signal :=
  match el with
  | ElRichRule rule => RichRuleAdded zone rule timeout
  | ElService service => ServiceAdded zone service timeout
  | ElPort port protocol => PortAdded zone port protocol timeout
  | ElProtocol protocol => ProtocolAdded zone protocol timeout
  | ElMasquerade => MasqueradeAdded zone timeout
  | ElForwardPort port protocol toport toaddr =>
      ForwardPortAdded zone port protocol toport toaddr timeout
  | ElIcmpBlock icmp => IcmpBlockAdded zone icmp timeout
  end.

Definition removed_signal (zone : string) (el : element) : signal :=
  match el with
  | ElRichRule rule => RichRuleRemoved zone rule
  | ElService service => ServiceRemoved zone service
  | ElPort port protocol => PortRemoved zone port protocol
  | ElProtocol protocol => ProtocolRemoved zone protocol
  | ElMasquerade => MasqueradeRemoved zone
  | ElForwardPort port protocol toport toaddr =>
      ForwardPortRemoved zone port protocol toport toaddr
  | ElIcmpBlock icmp => IcmpBlockRemoved zone icmp
  end.

(** The core's element for the arguments of the method; a rich rule goes
    through the parser. *)
Definition entry_of (env : Env) (el : element) : result entry :=
  match el with
  | ElRichRule rule =>
      match Rich_Rule env rule with
      | Ok obj => Ok (ERichRule obj)
      | Raise e => Raise e
      end
  | ElService service => Ok (EService service)
  | ElPort port protocol => Ok (EPort port protocol)
  | ElProtocol protocol => Ok (EProtocol protocol)
  | ElMasquerade => Ok EMasquerade
  | ElForwardPort port protocol toport toaddr =>
      Ok (EForwardPort port protocol toport toaddr)
  | ElIcmpBlock icmp => Ok (EIcmpBlock icmp)
  end.

(** ** The exported methods and their authorization

    One row per [@dbus_service_method] of the class, in source order: the
    bus interface and the action of its [@slip.dbus.polkit.require_auth]
    decorator, [None] where the method has no such decorator. *)

Inductive dbus_interface :=
| PROPERTIES_IFACE
| DBUS_INTERFACE
| DBUS_INTERFACE_ZONE
| DBUS_INTERFACE_DIRECT
| DBUS_INTERFACE_POLICIES.

#[global] Instance dbus_interface_eq_dec : EqDecision dbus_interface.
Proof. solve_decision. Defined.

Definition dbus_methods : list (string * (dbus_interface * option pk_action)) := [
  ("Get", (PROPERTIES_IFACE, None));
  ("GetAll", (PROPERTIES_IFACE, None));
  ("Set", (PROPERTIES_IFACE, Some PK_ACTION_CONFIG));
  ("reload", (DBUS_INTERFACE, Some PK_ACTION_CONFIG));
  ("completeReload", (DBUS_INTERFACE, Some PK_ACTION_CONFIG));
  ("runtimeToPermanent", (DBUS_INTERFACE, Some PK_ACTION_CONFIG));
  ("enableLockdown", (DBUS_INTERFACE_POLICIES, Some PK_ACTION_POLICIES));
  ("disableLockdown", (DBUS_INTERFACE_POLICIES, Some PK_ACTION_POLICIES));
  ("queryLockdown", (DBUS_INTERFACE_POLICIES, Some PK_ACTION_POLICIES_INFO));
  ("addLockdownWhitelistCommand", (DBUS_INTERFACE_POLICIES, Some PK_ACTION_POLICIES));
  ("removeLockdownWhitelistCommand", (DBUS_INTERFACE_POLICIES, Some PK_ACTION_POLICIES));
  ("queryLockdownWhitelistCommand", (DBUS_INTERFACE_POLICIES, Some PK_ACTION_POLICIES_INFO));
  ("getLockdownWhitelistCommands", (DBUS_INTERFACE_POLICIES, Some PK_ACTION_POLICIES_INFO));
  ("addLockdownWhitelistUid", (DBUS_INTERFACE_POLICIES, Some PK_ACTION_POLICIES));
  ("removeLockdownWhitelistUid", (DBUS_INTERFACE_POLICIES, Some PK_ACTION_POLICIES));
  ("queryLockdownWhitelistUid", (DBUS_INTERFACE_POLICIES, Some PK_ACTION_POLICIES_INFO));
  ("getLockdownWhitelistUids", (DBUS_INTERFACE_POLICIES, Some PK_ACTION_POLICIES_INFO));
  ("addLockdownWhitelistUser", (DBUS_INTERFACE_POLICIES, Some PK_ACTION_POLICIES));
  ("removeLockdownWhitelistUser", (DBUS_INTERFACE_POLICIES, Some PK_ACTION_POLICIES));
  ("queryLockdownWhitelistUser", (DBUS_INTERFACE_POLICIES, Some PK_ACTION_POLICIES_INFO));
  ("getLockdownWhitelistUsers", (DBUS_INTERFACE_POLICIES, Some PK_ACTION_POLICIES_INFO));
  ("addLockdownWhitelistContext", (DBUS_INTERFACE_POLICIES, Some PK_ACTION_POLICIES));
  ("removeLockdownWhitelistContext", (DBUS_INTERFACE_POLICIES, Some PK_ACTION_POLICIES));
  ("queryLockdownWhitelistContext", (DBUS_INTERFACE_POLICIES, Some PK_ACTION_POLICIES_INFO));
  ("getLockdownWhitelistContexts", (DBUS_INTERFACE_POLICIES, Some PK_ACTION_POLICIES_INFO));
  ("enablePanicMode", (DBUS_INTERFACE, Some PK_ACTION_CONFIG));
  ("disablePanicMode", (DBUS_INTERFACE, Some PK_ACTION_CONFIG));
  ("queryPanicMode", (DBUS_INTERFACE, Some PK_ACTION_INFO));
  ("getZoneSettings", (DBUS_INTERFACE, Some PK_ACTION_INFO));
  ("listServices", (DBUS_INTERFACE, Some PK_ACTION_INFO));
  ("getServiceSettings", (DBUS_INTERFACE, Some PK_ACTION_INFO));
  ("listIcmpTypes", (DBUS_INTERFACE, Some PK_ACTION_INFO));
  ("getIcmpTypeSettings", (DBUS_INTERFACE, Some PK_ACTION_INFO));
  ("getDefaultZone", (DBUS_INTERFACE, Some PK_ACTION_INFO));
  ("setDefaultZone", (DBUS_INTERFACE, Some PK_ACTION_CONFIG));
  ("getZones", (DBUS_INTERFACE_ZONE, Some PK_ACTION_INFO));
  ("getActiveZones", (DBUS_INTERFACE_ZONE, Some PK_ACTION_INFO));
  ("getZoneOfInterface", (DBUS_INTERFACE_ZONE, Some PK_ACTION_INFO));
  ("getZoneOfSource", (DBUS_INTERFACE_ZONE, Some PK_ACTION_INFO));
  ("isImmutable", (DBUS_INTERFACE_ZONE, Some PK_ACTION_CONFIG_INFO));
  ("addInterface", (DBUS_INTERFACE_ZONE, Some PK_ACTION_CONFIG));
  ("changeZone", (DBUS_INTERFACE_ZONE, Some PK_ACTION_CONFIG));
  ("changeZoneOfInterface", (DBUS_INTERFACE_ZONE, Some PK_ACTION_CONFIG));
  ("removeInterface", (DBUS_INTERFACE_ZONE, Some PK_ACTION_CONFIG));
  ("queryInterface", (DBUS_INTERFACE_ZONE, Some PK_ACTION_CONFIG_INFO));
  ("getInterfaces", (DBUS_INTERFACE_ZONE, Some PK_ACTION_CONFIG_INFO));
  ("addSource", (DBUS_INTERFACE_ZONE, Some PK_ACTION_CONFIG));
  ("changeZoneOfSource", (DBUS_INTERFACE_ZONE, Some PK_ACTION_CONFIG));
  ("removeSource", (DBUS_INTERFACE_ZONE, Some PK_ACTION_CONFIG));
  ("querySource", (DBUS_INTERFACE_ZONE, Some PK_ACTION_CONFIG_INFO));
  ("getSources", (DBUS_INTERFACE_ZONE, Some PK_ACTION_CONFIG_INFO));
  ("addRichRule", (DBUS_INTERFACE_ZONE, Some PK_ACTION_CONFIG));
  ("removeRichRule", (DBUS_INTERFACE_ZONE, Some PK_ACTION_CONFIG));
  ("queryRichRule", (DBUS_INTERFACE_ZONE, Some PK_ACTION_CONFIG_INFO));
  ("getRichRules", (DBUS_INTERFACE_ZONE, Some PK_ACTION_CONFIG_INFO));
  ("addService", (DBUS_INTERFACE_ZONE, Some PK_ACTION_CONFIG));
  ("removeService", (DBUS_INTERFACE_ZONE, Some PK_ACTION_CONFIG));
  ("queryService", (DBUS_INTERFACE_ZONE, Some PK_ACTION_CONFIG_INFO));
  ("getServices", (DBUS_INTERFACE_ZONE, Some PK_ACTION_CONFIG_INFO));
  ("addPort", (DBUS_INTERFACE_ZONE, Some PK_ACTION_CONFIG));
  ("removePort", (DBUS_INTERFACE_ZONE, Some PK_ACTION_CONFIG));
  ("queryPort", (DBUS_INTERFACE_ZONE, Some PK_ACTION_CONFIG_INFO));
  ("getPorts", (DBUS_INTERFACE_ZONE, Some PK_ACTION_CONFIG_INFO));
  ("addProtocol", (DBUS_INTERFACE_ZONE, Some PK_ACTION_CONFIG));
  ("removeProtocol", (DBUS_INTERFACE_ZONE, Some PK_ACTION_CONFIG));
  ("queryProtocol", (DBUS_INTERFACE_ZONE, Some PK_ACTION_CONFIG_INFO));
  ("getProtocols", (DBUS_INTERFACE_ZONE, Some PK_ACTION_CONFIG_INFO));
  ("addMasquerade", (DBUS_INTERFACE_ZONE, Some PK_ACTION_CONFIG));
  ("removeMasquerade", (DBUS_INTERFACE_ZONE, Some PK_ACTION_CONFIG));
  ("queryMasquerade", (DBUS_INTERFACE_ZONE, Some PK_ACTION_CONFIG_INFO));
  ("addForwardPort", (DBUS_INTERFACE_ZONE, Some PK_ACTION_CONFIG));
  ("removeForwardPort", (DBUS_INTERFACE_ZONE, Some PK_ACTION_CONFIG));
  ("queryForwardPort", (DBUS_INTERFACE_ZONE, Some PK_ACTION_CONFIG_INFO));
  ("getForwardPorts", (DBUS_INTERFACE_ZONE, Some PK_ACTION_CONFIG_INFO));
  ("addIcmpBlock", (DBUS_INTERFACE_ZONE, Some PK_ACTION_CONFIG));
  ("removeIcmpBlock", (DBUS_INTERFACE_ZONE, Some PK_ACTION_CONFIG));
  ("queryIcmpBlock", (DBUS_INTERFACE_ZONE, Some PK_ACTION_CONFIG_INFO));
  ("getIcmpBlocks", (DBUS_INTERFACE_ZONE, Some PK_ACTION_CONFIG_INFO));
  ("addChain", (DBUS_INTERFACE_DIRECT, Some PK_ACTION_DIRECT));
  ("removeChain", (DBUS_INTERFACE_DIRECT, Some PK_ACTION_DIRECT));
  ("queryChain", (DBUS_INTERFACE_DIRECT, Some PK_ACTION_DIRECT_INFO));
  ("getChains", (DBUS_INTERFACE_DIRECT, Some PK_ACTION_DIRECT_INFO));
  ("getAllChains", (DBUS_INTERFACE_DIRECT, Some PK_ACTION_DIRECT_INFO));
  ("addRule", (DBUS_INTERFACE_DIRECT, Some PK_ACTION_DIRECT));
  ("removeRule", (DBUS_INTERFACE_DIRECT, Some PK_ACTION_DIRECT));
  ("removeRules", (DBUS_INTERFACE_DIRECT, Some PK_ACTION_DIRECT));
  ("queryRule", (DBUS_INTERFACE_DIRECT, Some PK_ACTION_DIRECT_INFO));
  ("getRules", (DBUS_INTERFACE_DIRECT, Some PK_ACTION_DIRECT_INFO));
  ("getAllRules", (DBUS_INTERFACE_DIRECT, Some PK_ACTION_DIRECT_INFO));
  ("passthrough", (DBUS_INTERFACE_DIRECT, Some PK_ACTION_DIRECT));
  ("addPassthrough", (DBUS_INTERFACE_DIRECT, None));
  ("removePassthrough", (DBUS_INTERFACE_DIRECT, None));
  ("queryPassthrough", (DBUS_INTERFACE_DIRECT, Some PK_ACTION_DIRECT_INFO));
  ("getAllPassthroughs", (DBUS_INTERFACE_DIRECT, Some PK_ACTION_DIRECT_INFO));
  ("removeAllPassthroughs", (DBUS_INTERFACE_DIRECT, Some PK_ACTION_DIRECT));
  ("getPassthroughs", (DBUS_INTERFACE_DIRECT, Some PK_ACTION_DIRECT_INFO));
  ("authorizeAll", (DBUS_INTERFACE, Some PK_ACTION_ALL))
].

(** [FirewallD.default_polkit_auth_required] *)
Definition default_polkit_auth_required : pk_action := PK_ACTION_INFO.

Definition method_row (method : string) : option (dbus_interface * option pk_action) :=
  snd <$> find (λ row, bool_decide (row.1 = method)) dbus_methods.

(** The action that [slip.dbus.service.Object] checks before it runs a
    method: the one of the decorator, else the default of the class. *)
Definition polkit_auth_required (method : string) : option pk_action :=
  row ← method_row method;
  Some (default default_polkit_auth_required row.2).

(** A method call arriving over the bus from the bus name [sender]: the
    handler runs when polkit authorizes the sender for the action. *)
Definition dbus_call {A} (env : Env) (method : string) (sender : string)
    (handler : M A) : M A :=
  match polkit_auth_required method with
  | Some action =>
      if is_authorized env sender action then handler
      else raise (NotAuthorizedException action)
  | None => raise (Exception "UnknownMethod")
  end.

(** The methods of the direct interface that change the direct
    configuration or run a command of the caller. *)
Definition direct_mutators : list string :=
  ["addChain"; "removeChain"; "addRule"; "removeRule"; "removeRules";
   "passthrough"; "addPassthrough"; "removePassthrough"; "removeAllPassthroughs"].

(** ** runtime to permanent

    [self.config] (class [FirewallDConfig]) is the persistent store. Its
    state is a type [Store], its operations are state transformers that
    may raise, a configuration object is a handle [ConfObj], and exported
    settings are values of a type [Settings] compared with [!=]. *)

Section RuntimeToPermanent.
Context {Store Settings ConfObj : Type} `{!EqDecision Settings}.

Definition SM (A : Type) : Type := Store → result A * Store.

#[local] Instance SM_ret : MRet SM := λ A a s, (Ok a, s).

#[local] Instance SM_bind : MBind SM := λ A B k m s,
  match m s with
  | (Ok a, s') => k a s'
  | (Raise e, s') => (Raise e, s')
  end.

Definition sraise {A} (e : exn) : SM A := λ s, (Raise e, s).

(** [try: m  except Exception as e: h e] *)
Definition try_except {A} (m : SM A) (h : exn → SM A) : SM A := λ s,
  match m s with
  | (Raise e, s') => h e s'
  | r => r
  end.

Fixpoint sfor_each {A} (l : list A) (body : A → SM unit) : SM unit :=
  match l with
  | [] => mret tt
  | x :: l' => body x;; sfor_each l' body
  end.

Record FirewallDConfig := {
  getServiceByName : string → SM ConfObj;
  config_addService : string → Settings → SM unit;
  getIcmpTypeByName : string → SM ConfObj;
  config_addIcmpType : string → Settings → SM unit;
  getZoneByName : string → SM ConfObj;
  config_addZone : string → Settings → SM unit;
  conf_getSettings : ConfObj → SM Settings;
  conf_update : ConfObj → Settings → SM unit;
  config_getSettings : SM Settings;
  config_update : Settings → SM unit;
  setLockdownWhitelist : Settings → SM unit;
  (* what the walk reads from the runtime *)
  getServiceSettings : Firewall → string → Settings;
  getIcmpTypeSettings : Firewall → string → Settings;
  getZoneSettings : Firewall → string → Settings;
  direct_config : Firewall → Settings;
  whitelist_config : Firewall → Settings;
  (* ["CODE" in e] and [str(e)] *)
  exn_contains : string → exn → bool;
  exn_str : exn → string
}.

Variable cfg : FirewallDConfig.
Variable rt : Firewall.

Definition get_services : list string := services rt.
Definition get_icmptypes : list string := icmptypes rt.
Definition get_zones : list string := (map_to_list (zones rt)).*1.

(** The body of the outer [try] for one named entity: look the entity up
    in the store; create it when the lookup fails with the [code] of a
    missing entity, re-raise any other [FirewallError]; update it when
    its stored settings differ. *)
Definition copy_named (code : string) (lookup : string → SM ConfObj)
    (create : string → Settings → SM unit) (name : string) (config : Settings) : SM unit :=
  λ s,
  match lookup name s with
  | (Raise (FirewallError c m), s') =>
      if exn_contains cfg code (FirewallError c m)
      then create name config s'
      else (Raise (FirewallError c m), s')
  | (Raise e, s') => (Raise e, s')
  | (Ok conf_obj, s') =>
      (settings ← conf_getSettings cfg conf_obj;
       if decide (settings ≠ config) then conf_update cfg conf_obj config
       else mret tt) s'
  end.

Definition attempt_service (name : string) : SM unit :=
  copy_named "INVALID_SERVICE" (getServiceByName cfg) (config_addService cfg)
    name (getServiceSettings cfg rt name).

Definition attempt_icmptype (name : string) : SM unit :=
  copy_named "INVALID_ICMPTYPE" (getIcmpTypeByName cfg) (config_addIcmpType cfg)
    name (getIcmpTypeSettings cfg rt name).

Definition attempt_zone (name : string) : SM unit :=
  copy_named "INVALID_ZONE" (getZoneByName cfg) (config_addZone cfg)
    name (getZoneSettings cfg rt name).

Definition attempt_direct : SM unit :=
  let config := direct_config cfg rt in
  settings ← config_getSettings cfg;
  if decide (settings ≠ config) then config_update cfg config else mret tt.

Definition attempt_policies : SM unit :=
  let config := whitelist_config cfg rt in
  settings ← config_getSettings cfg;
  if decide (settings ≠ config) then setLockdownWhitelist cfg config else mret tt.

Definition rt_to_perm_failed {A} (prefix : string) (e : exn) : SM A :=
  sraise (FirewallError RT_TO_PERM_FAILED (prefix +:+ exn_str cfg e)).

Definition runtimeToPermanent (sender : option string) : SM unit :=
  (* services *)
  sfor_each get_services (λ name,
    try_except (attempt_service name)
      (rt_to_perm_failed ("service '" +:+ name +:+ "' : ")));;
  (* icmptypes *)
  sfor_each get_icmptypes (λ name,
    try_except (attempt_icmptype name)
      (rt_to_perm_failed ("icmptype '" +:+ name +:+ "' : ")));;
  (* zones *)
  sfor_each get_zones (λ name,
    try_except (attempt_zone name)
      (rt_to_perm_failed ("zone '" +:+ name +:+ "' : ")));;
  (* direct *)
  try_except attempt_direct (rt_to_perm_failed "direct configuration: ");;
  (* policies *)
  try_except attempt_policies (rt_to_perm_failed "policies configuration: ").

(** The entities of the walk, in the order of the walk. *)
Inductive entity :=
| EntService (name : string)
| EntIcmpType (name : string)
| EntZone (name : string)
| EntDirect
| EntPolicies.

Definition walk : list entity :=
  (EntService <$> get_services) ++ (EntIcmpType <$> get_icmptypes)
  ++ (EntZone <$> get_zones) ++ [EntDirect; EntPolicies].

Definition attempt (ent : entity) : SM unit :=
  match ent with
  | EntService name => attempt_service name
  | EntIcmpType name => attempt_icmptype name
  | EntZone name => attempt_zone name
  | EntDirect => attempt_direct
  | EntPolicies => attempt_policies
  end.

(** The identifier that prefixes the message of [RT_TO_PERM_FAILED]. *)
Definition entity_prefix (ent : entity) : string :=
  match ent with
  | EntService name => "service '" +:+ name +:+ "' : "
  | EntIcmpType name => "icmptype '" +:+ name +:+ "' : "
  | EntZone name => "zone '" +:+ name +:+ "' : "
  | EntDirect => "direct configuration: "
  | EntPolicies => "policies configuration: "
  end.

Definition persist (ent : entity) : SM unit :=
  try_except (attempt ent) (rt_to_perm_failed (entity_prefix ent)).

End RuntimeToPermanent.

(** ** A concrete daemon

    Two zones, [public] (the default) and [work] with the interface
    [eth0]; no timer armed; lockdown off. The reload of [demo_env] puts
    the zones back to these stored ones and keeps the rest of the core. *)

Definition demo_zones : gmap string Zone :=
  <["public" := Build_Zone [] [] []]> (<["work" := Build_Zone ["eth0"] [] []]> ∅).

Definition demo_whitelist : LockdownWhitelist :=
  {| wl_commands := ["/usr/bin/firewall-config"]; wl_uids := [0%Z];
     wl_users := ["admin"]; wl_contexts := ["system_u:system_r:NetworkManager_t:s0"] |}.

Definition demo_fw : Firewall :=
  {| default_zone := "public"; zones := demo_zones;
     services := ["ssh"; "http"]; icmptypes := ["echo-request"];
     passthroughs := []; lockdown := false;
     lockdown_whitelist := demo_whitelist |}.

Definition demo_env : Env :=
  {| Rich_Rule := λ rule,
       if decide (rule = "") then Raise (FirewallError INVALID_RULE rule) else Ok rule;
     context_of_sender := λ _, VStr "unconfined_u:unconfined_r:unconfined_t:s0";
     uid_of_sender := λ sender,
       if decide (sender = ":1.1") then VInt 0 else VInt 1000;
     user_of_uid := λ uid,
       match uid with
       | VInt 0 => VStr "root"
       | VInt 1000 => VStr "alice"
       | _ => VNone
       end;
     command_of_sender := λ sender,
       if decide (sender = ":1.2") then VStr "/usr/bin/firewall-config"
       else VStr "/usr/bin/python";
     fw_reload := λ _ x, Ok (set_zones (λ _, demo_zones) x);
     config_reload := λ _, Ok tt;
     is_authorized := λ _ action, bool_decide (action = PK_ACTION_INFO) |}.

Definition demo : FirewallD :=
  {| fw := demo_fw; _timeouts := ∅;
     glib := {| next_id := 1; sources := ∅ |};
     signals := []; checks := [] |}.

Definition set_lockdown (b : bool) (x : Firewall) : Firewall :=
  {| default_zone := default_zone x; zones := zones x;
     services := services x; icmptypes := icmptypes x;
     passthroughs := passthroughs x; lockdown := b;
     lockdown_whitelist := lockdown_whitelist x |}.

Definition demo_locked : FirewallD := set_fw (set_lockdown true demo_fw) demo.

(** The state that a method leaves, and the value it returns or the
    exception it raises. *)
Definition exec {A} (m : M A) (st : FirewallD) : FirewallD := (m st).2.
Definition eval {A} (m : M A) (st : FirewallD) : result A := (m st).1.

(** ** Specification-side definitions *)

(** The four identity checks of a caller, in the order of the
    specification: context, uid, user, command. *)
Definition identity_checks (env : Env) (sender : string) : list (string * pyval) :=
  let uid := uid_of_sender env sender in
  [("context", context_of_sender env sender);
   ("uid", uid);
   ("user", user_of_uid env uid);
   ("command", command_of_sender env sender)].

(** Consult the checks in order and stop at the first that matches: the
    checks consulted, and whether one matched. *)
Fixpoint consult (cs : list (string * pyval)) (x : Firewall) : list (string * pyval) * bool :=
  match cs with
  | [] => ([], false)
  | c :: cs' =>
      if access_check c.1 c.2 x then ([c], true)
      else let r := consult cs' x in (c :: r.1, r.2)
  end.

(** The lockdown check in one function, with the checks it consults:
    nothing to check when lockdown is off; with lockdown on, a call
    without caller identity is let through, and a caller is let through
    by the first of its four identity checks that matches. *)
Definition lockdown_checks (env : Env) (sender : option string) (x : Firewall) :
    list (string * pyval) * bool :=
  if query_lockdown x then
    match sender with
    | None => ([], true)
    | Some sender => consult (identity_checks env sender) x
    end
  else ([], true).

(** The tag recorded in the timeout table under [(zone, x)]. *)
Definition timer_of (zone : string) (x : tkey) (st : FirewallD) : option nat :=
  inner ← _timeouts st !! zone; inner !! x.

(** The live sources of the main loop that are bound to a callback. *)
Definition live_timers (cb : callback) (st : FirewallD) : list nat :=
  (filter (λ p, p.2.2 = cb) (map_to_list (sources (glib st)))).*1.

(** The state of the scenario of section 8: two tracked passthroughs, the
    second one referring to the chain that the first one creates. *)
Definition demo_direct : FirewallD :=
  set_fw (set_passthroughs [("ipv4", ["-N"; "A"]); ("ipv4", ["-A"; "A"; "-j"; "ACCEPT"])] demo_fw) demo.

Definition removed_passthrough (p : string * list string) : signal :=
  PassthroughRemoved p.1 p.2.

(** A store that keeps the names it was asked for, holds empty settings
    for every entity and cannot write the service [ssh]. *)
Definition demo_cfg : @FirewallDConfig (list string) string string :=
  {| getServiceByName := λ name s, (Ok name, s ++ [name]);
     config_addService := λ _ _ s, (Ok tt, s);
     getIcmpTypeByName := λ name s, (Ok name, s ++ [name]);
     config_addIcmpType := λ _ _ s, (Ok tt, s);
     getZoneByName := λ name s, (Ok name, s ++ [name]);
     config_addZone := λ _ _ s, (Ok tt, s);
     conf_getSettings := λ _ s, (Ok "", s);
     conf_update := λ obj _ s,
       if decide (obj = "ssh") then (Raise (Exception "read-only file system"), s)
       else (Ok tt, s);
     config_getSettings := λ s, (Ok "", s);
     config_update := λ _ s, (Ok tt, s);
     setLockdownWhitelist := λ _ s, (Ok tt, s);
     getServiceSettings := λ _ name, name;
     getIcmpTypeSettings := λ _ name, name;
     getZoneSettings := λ _ name, name;
     direct_config := λ _, "direct";
     whitelist_config := λ _, "whitelist";
     exn_contains := λ _ _, false;
     exn_str := λ e, match e with
                     | FirewallError _ msg | Exception msg => msg
                     | _ => ""
                     end |}.

(** *** The methods of the timed elements in one shape

    Every [add...], [remove...], [query...] and [disable...] of the seven
    kinds is the same sequence of steps up to the kind's arguments; only
    the rich-rule methods differ in that they parse the rule first and
    do not call [accessCheck]. *)

Definition calls_accessCheck (el : element) : bool :=
  match el with
  | ElRichRule _ => false
  | _ => true
  end.

Definition gate (env : Env) (b : bool) (sender : option string) : M unit :=
  if b then accessCheck env sender else mret tt.

Definition arm_timeout (zone : string) (el : element) (timeout : Z)
    (sender : option string) : M unit :=
  if decide (0 < timeout)%Z then
    tag ← timeout_add_seconds timeout (timeout_callback zone el sender);
    addTimeout zone (timeout_key el) tag
  else mret tt.

Definition add_generic (env : Env) (zone : string) (el : element) (timeout : Z)
    (sender : option string) : M string :=
  gate env (calls_accessCheck el) sender;;
  e ← lift_result (entry_of env el);
  _zone ← lift_fw (zone_add zone e);
  arm_timeout _zone el timeout sender;;
  emit (added_signal _zone el timeout);;
  mret _zone.

Definition remove_generic (env : Env) (zone : string) (el : element)
    (sender : option string) : M string :=
  gate env (calls_accessCheck el) sender;;
  e ← lift_result (entry_of env el);
  _zone ← lift_fw (zone_remove zone e);
  removeTimeout _zone (timeout_key el);;
  emit (removed_signal _zone el);;
  mret _zone.

Definition query_generic (env : Env) (zone : string) (el : element) : M bool :=
  e ← lift_result (entry_of env el);
  gets (λ st, zone_query zone e (fw st)).

Definition disable_generic (env : Env) (zone : string) (el : element) : M unit :=
  del_timeout zone (timeout_key el);;
  e ← lift_result (entry_of env el);
  lift_fw (zone_remove zone e);;
  emit (removed_signal zone el).

(** *** The mutators of the zone interface that take a zone *)

Inductive zone_mutator :=
| MAddInterface (interface : string)
| MChangeZone (interface : string)
| MChangeZoneOfInterface (interface : string)
| MRemoveInterface (interface : string)
| MAddSource (source : string)
| MChangeZoneOfSource (source : string)
| MRemoveSource (source : string)
| MAddElement (el : element) (timeout : Z)
| MRemoveElement (el : element).

Definition run_mutator (env : Env) (zone : string) (m : zone_mutator)
    (sender : option string) : M string :=
  match m with
  | MAddInterface interface => addInterface env zone interface sender
  | MChangeZone interface => changeZone env zone interface sender
  | MChangeZoneOfInterface interface => changeZoneOfInterface env zone interface sender
  | MRemoveInterface interface => removeInterface env zone interface sender
  | MAddSource source => addSource env zone source sender
  | MChangeZoneOfSource source => changeZoneOfSource env zone source sender
  | MRemoveSource source => removeSource env zone source sender
  | MAddElement el timeout => add_element env zone el timeout sender
  | MRemoveElement el => remove_element env zone el sender
  end.

(** The signals of a mutator, for the zone it resolved. *)
Definition mutator_signals (zone : string) (m : zone_mutator) : list signal :=
  match m with
  | MAddInterface interface => [InterfaceAdded zone interface]
  | MChangeZone interface | MChangeZoneOfInterface interface =>
      [ZoneChanged zone interface; ZoneOfInterfaceChanged zone interface]
  | MRemoveInterface interface => [InterfaceRemoved zone interface]
  | MAddSource source => [SourceAdded zone source]
  | MChangeZoneOfSource source => [ZoneOfSourceChanged zone source]
  | MRemoveSource source => [SourceRemoved zone source]
  | MAddElement el timeout => [added_signal zone el timeout]
  | MRemoveElement el => [removed_signal zone el]
  end.

(** The zone in the payload of a signal of the zone interface. *)
Definition signal_zone (s : signal) : option string :=
  match s with
  | Reloaded | PassthroughAdded _ _ | PassthroughRemoved _ _ => None
  | InterfaceAdded zone _ | ZoneChanged zone _ | ZoneOfInterfaceChanged zone _
  | InterfaceRemoved zone _ | SourceAdded zone _ | ZoneOfSourceChanged zone _
  | SourceRemoved zone _ | RichRuleAdded zone _ _ | RichRuleRemoved zone _
  | ServiceAdded zone _ _ | ServiceRemoved zone _ | PortAdded zone _ _ _
  | PortRemoved zone _ _ | ProtocolAdded zone _ _ | ProtocolRemoved zone _
  | MasqueradeAdded zone _ | MasqueradeRemoved zone
  | ForwardPortAdded zone _ _ _ _ _ | ForwardPortRemoved zone _ _ _ _
  | IcmpBlockAdded zone _ _ | IcmpBlockRemoved zone _ => Some zone
  end.

(** What the empty zone name stands for: the zone that the interface or
    source is bound to for [removeInterface] and [removeSource], the
    default zone for every other mutator. *)
Definition resolved_zone (m : zone_mutator) (x : Firewall) : option string :=
  match m with
  | MRemoveInterface interface => get_zone_of_interface interface x
  | MRemoveSource source => get_zone_of_source source x
  | _ => Some (default_zone x)
  end.

(** A mutator without timer: the lockdown check, one call into the core,
    the signals. *)
Definition core_call (env : Env) (f : Firewall → result (string * Firewall))
    (sigs : string → list signal) (sender : option string) : M string :=
  accessCheck env sender;;
  _zone ← lift_fw f;
  for_each (sigs _zone) emit;;
  mret _zone.

(** ** Further methods of the class *)

(** *** property handling *)

(** The value of a property: a string or a boolean. *)
Inductive prop_value :=
| PStr (s : string)
| PBool (b : bool).

#[global] Instance prop_value_eq_dec : EqDecision prop_value.
Proof. solve_decision. Defined.

(** What the property methods read from outside the class: the constants
    [DBUS_INTERFACE] (the name of the main interface), [VERSION],
    [DBUS_INTERFACE_VERSION] and [DBUS_INTERFACE_REVISION] of
    [firewall.config], and the state and backend flags of the core. *)
Record Constants := {
  DBUS_INTERFACE_name : string;
  VERSION : string;
  DBUS_INTERFACE_VERSION : nat;
  DBUS_INTERFACE_REVISION : nat;
  get_state : Firewall → string;
  ip4tables_enabled : Firewall → bool;
  ip6tables_enabled : Firewall → bool;
  ipv6_rpfilter_enabled : Firewall → bool;
  ebtables_enabled : Firewall → bool
}.

(** [dbus.exceptions.DBusException(msg)] is [Exception msg]. *)
Definition not_exported (prop : string) : exn :=
  Exception ("org.freedesktop.DBus.Error.AccessDenied: Property '" +:+ prop
             +:+ "' isn't exported (or may not exist)").

Definition unknown_interface (interface_name : string) : exn :=
  Exception ("org.freedesktop.DBus.Error.UnknownInterface: FirewallD does not implement "
             +:+ interface_name).

Definition not_settable (property_name : string) : exn :=
  Exception ("org.freedesktop.DBus.Error.AccessDenied: Property '" +:+ property_name
             +:+ "' is not settable").

Definition _get_property (c : Constants) (prop : string) : M prop_value :=
  if decide (prop = "version") then mret (PStr (VERSION c))
  else if decide (prop = "interface_version") then
    mret (PStr (pretty (DBUS_INTERFACE_VERSION c) +:+ "."
                +:+ pretty (DBUS_INTERFACE_REVISION c)))
  else if decide (prop = "state") then gets (λ st, PStr (get_state c (fw st)))
  else if decide (prop = "IPv4") then gets (λ st, PBool (ip4tables_enabled c (fw st)))
  else if decide (prop = "IPv6") then gets (λ st, PBool (ip6tables_enabled c (fw st)))
  else if decide (prop = "IPv6_rpfilter") then
    gets (λ st, PBool (ipv6_rpfilter_enabled c (fw st)))
  else if decide (prop = "BRIDGE") then gets (λ st, PBool (ebtables_enabled c (fw st)))
  else raise (not_exported prop).

Definition Get (c : Constants) (interface_name property_name : string)
    (sender : option string) : M prop_value :=
  if decide (interface_name ≠ DBUS_INTERFACE_name c)
  then raise (unknown_interface interface_name)
  else _get_property c property_name.

Definition GetAll (c : Constants) (interface_name : string)
    (sender : option string) : M (gmap string prop_value) :=
  if decide (interface_name ≠ DBUS_INTERFACE_name c)
  then raise (unknown_interface interface_name)
  else
    version ← _get_property c "version";
    interface_version ← _get_property c "interface_version";
    state ← _get_property c "state";
    ipv4 ← _get_property c "IPv4";
    ipv6 ← _get_property c "IPv6";
    ipv6_rpfilter ← _get_property c "IPv6_rpfilter";
    bridge ← _get_property c "BRIDGE";
    mret (<["BRIDGE" := bridge]> (<["IPv6_rpfilter" := ipv6_rpfilter]>
          (<["IPv6" := ipv6]> (<["IPv4" := ipv4]> (<["state" := state]>
          (<["interface_version" := interface_version]>
          (<["version" := version]> ∅))))))).

(** [Set]: the name is a keyword here, hence the prime. The new value is
    never used. *)
Definition Set' (env : Env) (c : Constants) (interface_name property_name : string)
    (sender : option string) : M unit :=
  accessCheck env sender;;
  if decide (interface_name ≠ DBUS_INTERFACE_name c)
  then raise (unknown_interface interface_name)
  else raise (not_settable property_name).

(** *** ZONES *)

(** Modelled from the spec: [fw.zone.list_interfaces] and
    [fw.zone.list_sources], section 4.1: the empty zone name means the
    default zone, the zone must exist, the result is a copy of the list. *)
Definition list_interfaces (zone : string) (x : Firewall) : result (list string) :=
  match check_zone zone x with
  | Raise err => Raise err
  | Ok _zone => Ok (z_interfaces (default (Build_Zone [] [] []) (zones x !! _zone)))
  end.

Definition list_sources (zone : string) (x : Firewall) : result (list string) :=
  match check_zone zone x with
  | Raise err => Raise err
  | Ok _zone => Ok (z_sources (default (Build_Zone [] [] []) (zones x !! _zone)))
  end.

(** The body of the loop of [getActiveZones] for one zone, on the dict
    built so far. *)
Definition active_zone_step (zone : string)
    (acc : gmap string (gmap string (list string))) :
    M (gmap string (gmap string (list string))) :=
  interfaces ← (x ← gets fw; lift_result (list_interfaces zone x));
  sources ← (x ← gets fw; lift_result (list_sources zone x));
  if decide (0 < length interfaces + length sources) then
    let d := (∅ : gmap string (list string)) in
    let d := if decide (0 < length interfaces) then <["interfaces" := interfaces]> d else d in
    let d := if decide (0 < length sources) then <["sources" := sources]> d else d in
    mret (<[zone := d]> acc)
  else mret acc.

Fixpoint active_zones_loop (l : list string)
    (acc : gmap string (gmap string (list string))) :
    M (gmap string (gmap string (list string))) :=
  match l with
  | [] => mret acc
  | zone :: l' => acc' ← active_zone_step zone acc; active_zones_loop l' acc'
  end.

Definition getActiveZones (sender : option string) :
    M (gmap string (gmap string (list string))) :=
  l ← gets (λ st, get_zones (fw st));
  active_zones_loop l ∅.

(** [if zone: return zone; return ""]: [None] and the empty string both
    give the empty string. *)
Definition getZoneOfInterface (interface : string) (sender : option string) : M string :=
  zone ← gets (λ st, get_zone_of_interface interface (fw st));
  match zone with
  | Some zone => if decide (zone ≠ "") then mret zone else mret ""
  | None => mret ""
  end.

Definition getZoneOfSource (source : string) (sender : option string) : M string :=
  zone ← gets (λ st, get_zone_of_source source (fw st));
  match zone with
  | Some zone => if decide (zone ≠ "") then mret zone else mret ""
  | None => mret ""
  end.

(** *** lockdown

    The signals of the policies interface are not among [signal]; the
    methods that emit them run on the daemon together with the trace of
    those signals. *)

Inductive policies_signal :=
| LockdownEnabled
| LockdownDisabled.

Record Daemon := {
  daemon : FirewallD;
  policies_signals : list policies_signal
}.

Definition D (A : Type) : Type := Daemon → result A * Daemon.

#[global] Instance D_ret : MRet D := λ A a d, (Ok a, d).

#[global] Instance D_bind : MBind D := λ A B k m d,
  match m d with
  | (Ok a, d') => k a d'
  | (Raise e, d') => (Raise e, d')
  end.

(** A method of the class run on the daemon. *)
Definition on_daemon {A} (m : M A) : D A := λ d,
  let r := m (daemon d) in
  (r.1, {| daemon := r.2; policies_signals := policies_signals d |}).

Definition emit_policies (s : policies_signal) : D unit := λ d,
  (Ok tt, {| daemon := daemon d; policies_signals := policies_signals d ++ [s] |}).

(** Modelled from the spec: [fw.policies.enable_lockdown] and
    [fw.policies.disable_lockdown], section 6: they switch lockdown on
    and off. *)
Definition enable_lockdown (x : Firewall) : result (unit * Firewall) :=
  Ok (tt, set_lockdown true x).

Definition disable_lockdown (x : Firewall) : result (unit * Firewall) :=
  Ok (tt, set_lockdown false x).

Definition enableLockdown (env : Env) (sender : option string) : D unit :=
  on_daemon (accessCheck env sender);;
  on_daemon (lift_fw enable_lockdown);;
  emit_policies LockdownEnabled.

Definition disableLockdown (env : Env) (sender : option string) : D unit :=
  on_daemon (accessCheck env sender);;
  on_daemon (lift_fw disable_lockdown);;
  emit_policies LockdownDisabled.

Definition queryLockdown (sender : option string) : D bool :=
  (* no access check here *)
  on_daemon (gets (λ st, query_lockdown (fw st))).

(** *** Specification-side definitions for these methods *)

(** A list as [Some] when it is not empty. *)
Definition nonempty (l : list string) : option (list string) :=
  match l with
  | [] => None
  | _ => Some l
  end.

(** The dict that [getActiveZones] stores for a zone with these
    interfaces and sources, and whether it stores one. *)
Definition zone_dict (z : Zone) : gmap string (list string) :=
  let d := (∅ : gmap string (list string)) in
  let d := if decide (0 < length (z_interfaces z))
           then <["interfaces" := z_interfaces z]> d else d in
  if decide (0 < length (z_sources z)) then <["sources" := z_sources z]> d else d.

Definition zone_active (z : Zone) : Prop :=
  0 < length (z_interfaces z) + length (z_sources z).

#[global] Instance zone_active_dec (z : Zone) : Decision (zone_active z).
Proof. unfold zone_active. apply _. Defined.

(** Whether the method of a mutator calls [accessCheck]. *)
Definition mutator_checked (m : zone_mutator) : bool :=
  match m with
  | MAddElement el _ | MRemoveElement el => calls_accessCheck el
  | _ => true
  end.

(** The main loop without one source. *)
Definition without_source (tag : nat) (g : GLib) : GLib :=
  {| next_id := next_id g; sources := delete tag (sources g) |}.

(** ** Properties *)

(** *** Lists *)

Lemma filter_all {A} (P : A → Prop) `{!∀ x, Decision (P x)} (l : list A) :
  (∀ x, x ∈ l → P x) → filter P l = l.
Proof.
  induction l as [|a l IH]; intros Hall; [done|].
  rewrite filter_cons_True by (apply Hall; left).
  f_equal. apply IH. intros x Hx. apply Hall. by right.
Qed.

Lemma filter_none {A} (P : A → Prop) `{!∀ x, Decision (P x)} (l : list A) :
  (∀ x, x ∈ l → ¬ P x) → filter P l = [].
Proof.
  induction l as [|a l IH]; intros Hall; [done|].
  rewrite filter_cons_False by (apply Hall; left).
  apply IH. intros x Hx. apply Hall. by right.
Qed.


(** *** The lockdown check *)

Section AccessCheck.
Variable env : Env.

Lemma consult_checks x c1 c2 c3 c4 :
  consult [c1; c2; c3; c4] x =
    if access_check c1.1 c1.2 x then ([c1], true)
    else if access_check c2.1 c2.2 x then ([c1; c2], true)
    else if access_check c3.1 c3.2 x then ([c1; c2; c3], true)
    else if access_check c4.1 c4.2 x then ([c1; c2; c3; c4], true)
    else ([c1; c2; c3; c4], false).
Proof.
  simpl. repeat (destruct (access_check _ _ x); simpl; [reflexivity|]).
  reflexivity.
Qed.

Lemma set_checks_nil st : set_checks (checks st ++ []) st = st.
Proof. destruct st. unfold set_checks. simpl. by rewrite (right_id_L [] (++)). Qed.

(** Every run of [accessCheck]: its outcome and the checks it consults
    are those of [lockdown_checks], and nothing else changes. *)
Lemma accessCheck_run sender st :
  accessCheck env sender st =
    let r := lockdown_checks env sender (fw st) in
    (if r.2 then Ok tt else Raise (FirewallError ACCESS_DENIED "lockdown is enabled"),
     set_checks (checks st ++ r.1) st).
Proof.
  unfold lockdown_checks, accessCheck, mbind, M_bind, gets.
  destruct (query_lockdown (fw st)); [|by rewrite set_checks_nil].
  destruct sender as [sender|]; [|by rewrite set_checks_nil].
  unfold identity_checks. rewrite consult_checks.
  unfold fw_policies_access_check, mret, M_ret, raise. simpl.
  destruct (access_check "context" _ (fw st)); [reflexivity|]. simpl.
  destruct (access_check "uid" _ (fw st)); simpl.
  { by rewrite <- (assoc_L (++)). }
  destruct (access_check "user" _ (fw st)); simpl.
  { by rewrite <- !(assoc_L (++)). }
  destruct (access_check "command" _ (fw st));
    simpl; by rewrite <- !(assoc_L (++)).
Qed.

(** C3: with lockdown enabled and a caller identity present, [accessCheck]
    consults the whitelist for the context, then the uid, then the user,
    then the command of the caller and stops at the first match, returning
    without error; when none of the four matches it raises
    [ACCESS_DENIED] with the message [lockdown is enabled]. Nothing but
    the trace of the consulted checks changes in the state. *)
Theorem accessCheck_order sender st :
  query_lockdown (fw st) = true →
  accessCheck env (Some sender) st =
    let r := consult (identity_checks env sender) (fw st) in
    (if r.2 then Ok tt else Raise (FirewallError ACCESS_DENIED "lockdown is enabled"),
     set_checks (checks st ++ r.1) st).
Proof.
  intros Hlock. rewrite accessCheck_run. unfold lockdown_checks. by rewrite Hlock.
Qed.

(** C10: with lockdown enabled and no caller identity ([sender is None]),
    [accessCheck] returns normally and leaves the state as it is, so a
    method that starts with it runs as if the check had passed. *)
Theorem accessCheck_without_sender st :
  query_lockdown (fw st) = true →
  accessCheck env None st = (Ok tt, st)
  ∧ ∀ (A : Type) (m : M A), (accessCheck env None;; m) st = m st.
Proof.
  intros Hlock.
  assert (H : accessCheck env None st = (Ok tt, st)).
  { rewrite accessCheck_run. unfold lockdown_checks. rewrite Hlock. simpl.
    by rewrite set_checks_nil. }
  split; [exact H|].
  intros A m. unfold mbind at 1. unfold M_bind. by rewrite H.
Qed.

(** Whatever the outcome, [accessCheck] only extends the trace of the
    consulted checks, and its outcome depends on the lockdown switch and
    the whitelist alone. *)
Lemma accessCheck_frame sender st :
  ∃ cs, (accessCheck env sender st).2 = set_checks (checks st ++ cs) st.
Proof. rewrite accessCheck_run. simpl. eauto. Qed.

Lemma consult_whitelist cs x x' :
  lockdown_whitelist x' = lockdown_whitelist x → consult cs x' = consult cs x.
Proof.
  intros Hwl. induction cs as [|c cs IH]; [done|].
  simpl. rewrite IH.
  replace (access_check c.1 c.2 x') with (access_check c.1 c.2 x); [done|].
  unfold access_check. by rewrite Hwl.
Qed.


End AccessCheck.

Lemma accessCheck_order_witness :
  query_lockdown (fw demo_locked) = true
  ∧ accessCheck demo_env (Some ":1.2") demo_locked =
      (Ok tt,
       set_checks [("context", VStr "unconfined_u:unconfined_r:unconfined_t:s0");
                   ("uid", VInt 1000); ("user", VStr "alice");
                   ("command", VStr "/usr/bin/firewall-config")] demo_locked).
Proof.
  split; [reflexivity|].
  rewrite (accessCheck_order demo_env ":1.2" demo_locked); reflexivity.
Defined.

Lemma accessCheck_without_sender_witness :
  query_lockdown (fw demo_locked) = true
  ∧ accessCheck demo_env None demo_locked = (Ok tt, demo_locked).
Proof.
  split; [reflexivity|].
  apply (accessCheck_without_sender demo_env demo_locked). reflexivity.
Defined.

(** *** Authorization of the direct interface *)

Lemma dbus_call_default {A} env method iface sender (handler : M A) st :
  method_row method = Some (iface, None) →
  is_authorized env sender PK_ACTION_INFO = true →
  dbus_call env method sender handler st = handler st.
Proof.
  intros Hrow Hauth. unfold dbus_call, polkit_auth_required.
  rewrite Hrow. simpl. unfold default_polkit_auth_required. by rewrite Hauth.
Qed.

(** C1 (the code departs from the claim): [addPassthrough] and
    [removePassthrough] carry no [require_auth] decorator, so the bus
    checks them against the default action of the class, the info action;
    they are the only mutators of the direct interface not gated by the
    direct action. A caller that polkit authorizes for the info action
    only, and refuses for the direct action, adds and removes a tracked
    passthrough. *)
Theorem tracked_passthrough_mutators_gated_by_info :
  polkit_auth_required "addPassthrough" = Some PK_ACTION_INFO
  ∧ polkit_auth_required "removePassthrough" = Some PK_ACTION_INFO
  ∧ filter (λ m, polkit_auth_required m ≠ Some PK_ACTION_DIRECT) direct_mutators
    = ["addPassthrough"; "removePassthrough"]
  ∧ is_authorized demo_env ":1.5" PK_ACTION_DIRECT = false
  ∧ (let call := dbus_call demo_env "addPassthrough" ":1.5"
                   (addPassthrough demo_env "ipv4" ["-N"; "A"] (Some ":1.5")) in
     eval call demo = Ok tt
     ∧ get_all_passthroughs (fw (exec call demo)) = [("ipv4", ["-N"; "A"])]
     ∧ signals (exec call demo) = [PassthroughAdded "ipv4" ["-N"; "A"]])
  ∧ (let call := dbus_call demo_env "removePassthrough" ":1.5"
                   (removePassthrough demo_env "ipv4" ["-N"; "A"] (Some ":1.5")) in
     eval call demo_direct = Ok tt
     ∧ get_all_passthroughs (fw (exec call demo_direct))
       = [("ipv4", ["-A"; "A"; "-j"; "ACCEPT"])])
  ∧ eval (dbus_call demo_env "addChain" ":1.5" (mret tt)) demo
    = Raise (NotAuthorizedException PK_ACTION_DIRECT).
Proof. repeat split; vm_compute; reflexivity. Qed.

(** *** Lockdown on the zone interface *)

Lemma addRichRule_ignores_sender env zone rule timeout sender st :
  addRichRule env zone rule timeout sender st = addRichRule env zone rule timeout None st.
Proof. reflexivity. Qed.

Lemma removeRichRule_ignores_sender env zone rule sender st :
  removeRichRule env zone rule sender st = removeRichRule env zone rule None st.
Proof. reflexivity. Qed.

(** C2 (the code departs from the claim): [addRichRule] and
    [removeRichRule] never call [accessCheck]: no whitelist check is made,
    whoever the caller is. With lockdown enabled, a caller that is not on
    the whitelist is refused by [addService] before any change, and yet
    adds and removes a rich rule. *)
Theorem rich_rule_mutators_skip_accessCheck :
  (∀ env zone rule timeout sender st,
     checks (exec (addRichRule env zone rule timeout sender) st) = checks st)
  ∧ (∀ env zone rule sender st,
     checks (exec (removeRichRule env zone rule sender) st) = checks st)
  ∧ query_lockdown (fw demo_locked) = true
  ∧ addService demo_env "" "ssh" 0 (Some ":1.5") demo_locked
    = (Raise (FirewallError ACCESS_DENIED "lockdown is enabled"),
       set_checks (identity_checks demo_env ":1.5") demo_locked)
  ∧ (let rule := "rule service name=ftp accept" in
     let st1 := exec (addRichRule demo_env "" rule 0 (Some ":1.5")) demo_locked in
     eval (addRichRule demo_env "" rule 0 (Some ":1.5")) demo_locked = Ok "public"
     ∧ eval (queryRichRule demo_env "public" rule None) st1 = Ok true
     ∧ signals st1 = [RichRuleAdded "public" rule 0]
     ∧ eval (removeRichRule demo_env "" rule (Some ":1.5")) st1 = Ok "public"
     ∧ eval (queryRichRule demo_env "public" rule None)
         (exec (removeRichRule demo_env "" rule (Some ":1.5")) st1) = Ok false).
Proof.
  split; [|split].
  - intros env zone rule timeout sender st.
    unfold exec, addRichRule, mbind, M_bind, lift_result, lift_fw.
    destruct (Rich_Rule env rule) as [obj|e]; simpl; [|done].
    destruct (zone_add zone (ERichRule obj) (fw st)) as [[_zone x]|e]; simpl; [|done].
    destruct (decide (0 < timeout)%Z); reflexivity.
  - intros env zone rule sender st.
    unfold exec, removeRichRule, mbind, M_bind, lift_result, lift_fw.
    destruct (Rich_Rule env rule) as [obj|e]; simpl; [|done].
    destruct (zone_remove zone (ERichRule obj) (fw st)) as [[_zone x]|e]; simpl; [|done].
    unfold removeTimeout, mbind, M_bind, gets. simpl.
    destruct (_timeouts st !! _zone) as [inner|]; simpl; [|done].
    destruct (inner !! KStr rule); reflexivity.
  - repeat split; vm_compute; reflexivity.
Qed.

(** *** Reload and the timers *)

Lemma reload_timers env sender st :
  _timeouts (exec (reload env sender) st) = _timeouts st
  ∧ glib (exec (reload env sender) st) = glib st.
Proof.
  unfold exec, reload, mbind, M_bind, lift_fw, lift_result, gets.
  destruct (fw_reload env false (fw st)) as [x|e]; simpl; [|done].
  destruct (config_reload env x); done.
Qed.

Lemma for_each_source_remove l : ∀ st,
  ∃ st',
    for_each l source_remove st = (Ok tt, st')
    ∧ fw st' = fw st ∧ _timeouts st' = _timeouts st ∧ signals st' = signals st
    ∧ ∀ t, sources (glib st') !! t =
           if decide (t ∈ l) then None else sources (glib st) !! t.
Proof.
  induction l as [|a l IH]; intros st.
  - exists st. by repeat split.
  - simpl. unfold mbind, M_bind, source_remove at 1, modify.
    destruct (IH (set_glib {| next_id := next_id (glib st);
                              sources := delete a (sources (glib st)) |} st))
      as (st' & Hrun & Hfw & Ht & Hsig & Hsrc).
    exists st'. split; [exact Hrun|]. repeat split; try done.
    intros t. rewrite Hsrc. cbn [glib set_glib sources].
    destruct (decide (t ∈ l)) as [Hin|Hnin].
    + rewrite decide_True; [done|by right].
    + destruct (decide (t = a)) as [->|Hne].
      * rewrite decide_True by left. by rewrite lookup_delete_eq.
      * rewrite decide_False; [by rewrite lookup_delete_ne|].
        rewrite elem_of_cons. tauto.
Qed.

Lemma timer_in_all_tags zone x tag st :
  timer_of zone x st = Some tag → tag ∈ all_tags (_timeouts st).
Proof.
  unfold timer_of, all_tags. intros H.
  destruct (_timeouts st !! zone) as [inner|] eqn:Hz; [|done]. simpl in H.
  apply list_elem_of_bind. exists (zone, inner). split.
  - apply list_elem_of_fmap. exists (x, tag). split; [done|].
    by apply elem_of_map_to_list.
  - by apply elem_of_map_to_list.
Qed.

(** What [cleanup_timeouts] does when it is called: every timer of the
    table is cancelled and the table is emptied. *)
Lemma cleanup_timeouts_cancels_all st :
  ∃ st',
    cleanup_timeouts st = (Ok tt, st')
    ∧ _timeouts st' = ∅
    ∧ ∀ zone x tag, timer_of zone x st = Some tag → sources (glib st') !! tag = None.
Proof.
  unfold cleanup_timeouts, mbind, M_bind, gets.
  destruct (for_each_source_remove (all_tags (_timeouts st)) st)
    as (st' & Hrun & _ & _ & _ & Hsrc).
  rewrite Hrun. unfold modify. eexists. split; [reflexivity|]. split; [done|].
  intros zone x tag Htimer. cbn [glib set_timeouts]. rewrite Hsrc.
  rewrite decide_True; [done|]. by eapply timer_in_all_tags.
Qed.

(** C4 (the code departs from the claim): [reload] does not call
    [cleanup_timeouts] and touches neither the timeout table nor the main
    loop, so every timer armed before the reload is still armed after it.
    After a timed [addPort] and a reload that drops the runtime port, the
    timer is still recorded and live, and when it fires its callback runs
    and fails with [NOT_ENABLED]. *)
Theorem reload_leaves_timers_armed :
  (∀ env sender st,
     _timeouts (exec (reload env sender) st) = _timeouts st
     ∧ glib (exec (reload env sender) st) = glib st)
  ∧ (let st1 := exec (addPort demo_env "public" "80" "tcp" 2 None) demo in
     let st2 := exec (reload demo_env None) st1 in
     eval (reload demo_env None) st1 = Ok tt
     ∧ eval (queryPort "public" "80" "tcp" None) st2 = Ok false
     ∧ timer_of "public" (KPair "80" "tcp") st2 = Some 1
     ∧ live_timers (CbPort "public" "80" "tcp") st2 = [1]
     ∧ fst <$> fire demo_env 1 st2 = Some (Raise (FirewallError NOT_ENABLED "public"))).
Proof.
  split; [intros; apply reload_timers|].
  repeat split; vm_compute; reflexivity.
Qed.

(** *** Tracked passthroughs *)

Section Passthroughs.
Variable env : Env.

Lemma removePassthrough_tracked p st :
  p ∈ passthroughs (fw st) →
  removePassthrough env p.1 p.2 None st =
    (Ok tt,
     set_signals (signals st ++ [removed_passthrough p])
       (set_fw (set_passthroughs (filter (λ q, q ≠ p) (passthroughs (fw st))) (fw st)) st)).
Proof.
  intros Hin. destruct p as [ipv args]. simpl in *.
  unfold removePassthrough, mbind, M_bind.
  assert (Hacc : accessCheck env None st = (Ok tt, st)).
  { unfold accessCheck, mbind, M_bind, gets. by destruct (query_lockdown (fw st)). }
  rewrite Hacc. unfold lift_fw, remove_passthrough.
  destruct (decide ((ipv, args) ∈ passthroughs (fw st))); [reflexivity|done].
Qed.

Lemma remove_each_tracked todo : ∀ st,
  NoDup todo →
  (∀ p, p ∈ todo → p ∈ passthroughs (fw st)) →
  ∃ st',
    for_each todo (λ p, removePassthrough env p.1 p.2 None) st = (Ok tt, st')
    ∧ passthroughs (fw st') = filter (λ q, q ∉ todo) (passthroughs (fw st))
    ∧ signals st' = signals st ++ (removed_passthrough <$> todo)
    ∧ _timeouts st' = _timeouts st ∧ glib st' = glib st.
Proof.
  induction todo as [|p todo IH]; intros st Hnd Hsub.
  - exists st. simpl. split; [done|]. split.
    + symmetry. apply filter_all. intros q _. apply not_elem_of_nil.
    + by rewrite (right_id_L [] (++)).
  - apply NoDup_cons in Hnd as [Hp Hnd].
    simpl. unfold mbind, M_bind.
    rewrite removePassthrough_tracked by (apply Hsub; left).
    set (st1 := set_signals _ _).
    destruct (IH st1 Hnd) as (st' & Hrun & Hpt & Hsig & Ht & Hg).
    { intros q Hq. subst st1. simpl. apply list_elem_of_filter. split.
      - intros ->. done.
      - apply Hsub. by right. }
    exists st'. split; [exact Hrun|]. subst st1. simpl in *.
    split; [|split; [|done]].
    + rewrite Hpt, list_filter_filter. apply list_filter_iff.
      intros q. rewrite not_elem_of_cons. tauto.
    + rewrite Hsig, <- (assoc_L (++)). done.
Qed.

(** C9: [removeAllPassthroughs] removes the tracked passthroughs in the
    reverse of their enumeration: with [p1, ..., pn] enumerated in
    insertion order it removes [pn] first and [p1] last, emits one
    [PassthroughRemoved] per entry in that order, and leaves no tracked
    passthrough. *)
Theorem removeAllPassthroughs_reverse_order sender st :
  NoDup (get_all_passthroughs (fw st)) →
  ∃ st',
    removeAllPassthroughs env sender st = (Ok tt, st')
    ∧ signals st' =
        signals st ++ (removed_passthrough <$> reverse (get_all_passthroughs (fw st)))
    ∧ get_all_passthroughs (fw st') = [].
Proof.
  intros Hnd. unfold removeAllPassthroughs, getAllPassthroughs, mbind, M_bind, gets.
  destruct (remove_each_tracked (reverse (get_all_passthroughs (fw st))) st)
    as (st' & Hrun & Hpt & Hsig & _).
  { by rewrite reverse_Permutation. }
  { intros p Hp. rewrite elem_of_reverse in Hp. exact Hp. }
  exists st'. split; [exact Hrun|]. split; [exact Hsig|].
  unfold get_all_passthroughs in *. rewrite Hpt.
  apply filter_none. intros q Hq Hn. apply Hn. rewrite elem_of_reverse. exact Hq.
Qed.

End Passthroughs.

Lemma removeAllPassthroughs_reverse_order_witness :
  NoDup (get_all_passthroughs (fw demo_direct))
  ∧ ∃ st',
      removeAllPassthroughs demo_env None demo_direct = (Ok tt, st')
      ∧ signals st' =
          [PassthroughRemoved "ipv4" ["-A"; "A"; "-j"; "ACCEPT"];
           PassthroughRemoved "ipv4" ["-N"; "A"]]
      ∧ get_all_passthroughs (fw st') = [].
Proof.
  assert (Hnd : NoDup (get_all_passthroughs (fw demo_direct))).
  { apply (bool_decide_unpack _). vm_compute. exact I. }
  split; [exact Hnd|].
  exact (removeAllPassthroughs_reverse_order demo_env None demo_direct Hnd).
Defined.

(** *** Runtime to permanent *)

Section RuntimeToPermanentProofs.
Context {Store Settings ConfObj : Type} `{!EqDecision Settings}.
Variable cfg : @FirewallDConfig Store Settings ConfObj.
Variable rt : Firewall.

Lemma sfor_each_app {A} (l1 l2 : list A) (f : A → SM unit) (s : Store) :
  sfor_each (l1 ++ l2) f s =
    match sfor_each l1 f s with
    | (Ok _, s') => sfor_each l2 f s'
    | (Raise e, s') => (Raise e, s')
    end.
Proof.
  revert s. induction l1 as [|x l1 IH]; intros s; [done|].
  simpl. unfold mbind, SM_bind. destruct (f x s) as [[[]|e] s']; [apply IH|done].
Qed.

Lemma sfor_each_fmap {A B} (g : A → B) (l : list A) (f : B → SM unit) (s : Store) :
  sfor_each (g <$> l) f s = sfor_each l (λ x, f (g x)) s.
Proof.
  revert s. induction l as [|x l IH]; intros s; [done|].
  simpl. unfold mbind, SM_bind. destruct (f (g x) s) as [[[]|e] s']; [apply IH|done].
Qed.

(** The five blocks of the method are one walk over the entities. *)
Lemma runtimeToPermanent_walk sender (s : Store) :
  runtimeToPermanent cfg rt sender s = sfor_each (walk rt) (persist cfg rt) s.
Proof.
  unfold runtimeToPermanent, walk.
  unfold mbind at 1. unfold SM_bind at 1.
  rewrite sfor_each_app, sfor_each_fmap.
  unfold persist at 1. cbn [attempt entity_prefix].
  destruct (sfor_each (get_services rt) _ s) as [[[]|e] s1]; [|done].
  unfold mbind at 1. unfold SM_bind at 1.
  rewrite sfor_each_app, sfor_each_fmap.
  unfold persist at 1. cbn [attempt entity_prefix].
  destruct (sfor_each (get_icmptypes rt) _ s1) as [[[]|e] s2]; [|done].
  unfold mbind at 1. unfold SM_bind at 1.
  rewrite sfor_each_app, sfor_each_fmap.
  unfold persist at 1. cbn [attempt entity_prefix].
  destruct (sfor_each (get_zones rt) _ s2) as [[[]|e] s3]; [|done].
  unfold persist. cbn [attempt entity_prefix sfor_each].
  unfold mbind, SM_bind.
  destruct (try_except (attempt_direct cfg rt) _ s3) as [[[]|e] s4]; [|done].
  by destruct (try_except (attempt_policies cfg rt) _ s4) as [[[]|e] s5].
Qed.

Lemma sfor_each_abort {A} (pre post : list A) (x : A) (f : A → SM unit)
    (s s1 s2 : Store) (e : exn) :
  sfor_each pre f s = (Ok tt, s1) →
  f x s1 = (Raise e, s2) →
  sfor_each (pre ++ x :: post) f s = (Raise e, s2).
Proof.
  intros Hpre Hx. rewrite sfor_each_app, Hpre. simpl.
  unfold mbind, SM_bind. by rewrite Hx.
Qed.

(** C7, as the code has it: when the attempt to persist an entity fails,
    after the entities before it in the walk (services, then icmp types,
    then zones, then direct, then policies) were persisted, the call
    raises [RT_TO_PERM_FAILED] with the identifier of that entity in front
    of the text of the failure, and stops there: the store is the one the
    failed attempt left, whatever entities come after in the walk. *)
Theorem runtimeToPermanent_fails_fast sender pre ent post (s s1 s2 : Store) e :
  walk rt = pre ++ ent :: post →
  sfor_each pre (persist cfg rt) s = (Ok tt, s1) →
  attempt cfg rt ent s1 = (Raise e, s2) →
  runtimeToPermanent cfg rt sender s =
    (Raise (FirewallError RT_TO_PERM_FAILED (entity_prefix ent +:+ exn_str cfg e)), s2).
Proof.
  intros Hwalk Hpre Hent.
  rewrite runtimeToPermanent_walk, Hwalk.
  apply sfor_each_abort with (s1 := s1); [exact Hpre|].
  unfold persist, try_except. by rewrite Hent.
Qed.

End RuntimeToPermanentProofs.

(** C7, as stated, fails: the service [ssh] cannot be written, the call
    raises for it, and the next service of the category, [http], is
    never looked up although persisting it would succeed. *)
Lemma runtimeToPermanent_abandons_category :
  get_services demo_fw = ["ssh"; "http"]
  ∧ runtimeToPermanent demo_cfg demo_fw None [] =
      (Raise (FirewallError RT_TO_PERM_FAILED "service 'ssh' : read-only file system"),
       ["ssh"])
  ∧ persist demo_cfg demo_fw (EntService "http") ["ssh"] = (Ok tt, ["ssh"; "http"])
  ∧ "http" ∉ (runtimeToPermanent demo_cfg demo_fw None []).2.
Proof.
  split; [reflexivity|]. split; [vm_compute; reflexivity|].
  split; [vm_compute; reflexivity|].
  apply (bool_decide_unpack _). vm_compute. exact I.
Qed.

Lemma runtimeToPermanent_fails_fast_witness :
  walk demo_fw =
    [] ++ EntService "ssh" ::
      [EntService "http"; EntIcmpType "echo-request"; EntZone "work";
       EntZone "public"; EntDirect; EntPolicies]
  ∧ sfor_each [] (persist demo_cfg demo_fw) [] = (Ok tt, [])
  ∧ attempt demo_cfg demo_fw (EntService "ssh") [] =
      (Raise (Exception "read-only file system"), ["ssh"])
  ∧ runtimeToPermanent demo_cfg demo_fw None [] =
      (Raise (FirewallError RT_TO_PERM_FAILED "service 'ssh' : read-only file system"),
       ["ssh"]).
Proof.
  assert (H1 : walk demo_fw =
    [] ++ EntService "ssh" ::
      [EntService "http"; EntIcmpType "echo-request"; EntZone "work";
       EntZone "public"; EntDirect; EntPolicies]) by (vm_compute; reflexivity).
  assert (H2 : sfor_each [] (persist demo_cfg demo_fw) [] = (Ok tt, [])) by reflexivity.
  assert (H3 : attempt demo_cfg demo_fw (EntService "ssh") [] =
      (Raise (Exception "read-only file system"), ["ssh"])) by (vm_compute; reflexivity).
  split; [exact H1|]. split; [exact H2|]. split; [exact H3|].
  exact (runtimeToPermanent_fails_fast demo_cfg demo_fw None _ _ _ _ _ _ _ H1 H2 H3).
Defined.

(** *** The core: adding, querying and removing an element *)

Lemma check_zone_inv zone x _zone :
  check_zone zone x = Ok _zone →
  is_Some (zones x !! _zone)
  ∧ _zone = (if decide (zone = "") then default_zone x else zone).
Proof.
  unfold check_zone. destruct (zones x !! _) eqn:Hz; [|done].
  intros [= <-]. by rewrite Hz.
Qed.


Lemma check_zone_insert zone x k v :
  is_Some (zones x !! k) →
  check_zone zone (set_zones (insert k v) x) = check_zone zone x.
Proof.
  intros [z Hz]. unfold check_zone, set_zones. simpl.
  destruct (decide (k = if decide (zone = "") then default_zone x else zone)) as [<-|Hne].
  - by rewrite lookup_insert_eq, Hz.
  - by rewrite lookup_insert_ne.
Qed.

Lemma zone_add_inv zone e x _zone x1 :
  zone_add zone e x = Ok (_zone, x1) →
  ∃ z, check_zone zone x = Ok _zone ∧ zones x !! _zone = Some z
       ∧ (e ∉ z_entries z)
       ∧ x1 = set_zones (insert _zone (set_entries (z_entries z ++ [e]) z)) x.
Proof.
  unfold zone_add.
  destruct (check_zone zone x) as [zn|] eqn:Hcz; [|done].
  destruct (check_entry e x); [|done].
  destruct (check_zone_inv _ _ _ Hcz) as [[z Hz] _]. rewrite Hz. simpl.
  destruct (decide (e ∈ z_entries z)); [done|].
  intros [= <- <-]. eauto.
Qed.

Lemma zone_add_query zone e x _zone x1 :
  zone_add zone e x = Ok (_zone, x1) →
  zone_query zone e x = false ∧ zone_query zone e x1 = true.
Proof.
  intros H. apply zone_add_inv in H as (z & Hcz & Hz & Hn & ->).
  unfold zone_query. rewrite check_zone_insert by eauto.
  rewrite Hcz, Hz. unfold set_zones. simpl. rewrite lookup_insert_eq. simpl.
  split.
  - by apply bool_decide_eq_false.
  - apply bool_decide_eq_true. apply elem_of_app. right. by left.
Qed.



(** *** Timed elements *)

(** Read a field of a state that is given by its setters. *)
Ltac fields :=
  cbn [fw _timeouts glib signals checks next_id sources fst snd
       set_fw set_timeouts set_glib set_signals set_checks].

Section TimedElements.
Variable env : Env.

Lemma add_element_generic zone el timeout sender st :
  add_element env zone el timeout sender st = add_generic env zone el timeout sender st.
Proof.
  destruct el; try reflexivity.
  unfold add_element, addRichRule, add_generic, gate, mbind, M_bind, lift_result. simpl.
  destruct (Rich_Rule env rule); reflexivity.
Qed.

Lemma remove_element_generic zone el sender st :
  remove_element env zone el sender st = remove_generic env zone el sender st.
Proof.
  destruct el; try reflexivity.
  unfold remove_element, removeRichRule, remove_generic, gate, mbind, M_bind, lift_result.
  simpl. destruct (Rich_Rule env rule); reflexivity.
Qed.

Lemma query_element_generic zone el sender st :
  query_element env zone el sender st = query_generic env zone el st.
Proof.
  destruct el; try reflexivity.
  unfold query_element, queryRichRule, query_generic, mbind, M_bind, lift_result.
  simpl. destruct (Rich_Rule env rule); reflexivity.
Qed.

Lemma run_callback_generic zone el sender st :
  run_callback env (timeout_callback zone el sender) st = disable_generic env zone el st.
Proof.
  destruct el; try reflexivity.
  unfold run_callback, timeout_callback, disableTimedRichRule, disable_generic,
    mbind, M_bind, lift_result. simpl.
  destruct (del_timeout zone (KStr rule) st) as [[[]|e] st']; [|done].
  destruct (Rich_Rule env rule); reflexivity.
Qed.

Lemma gate_frame b sender st :
  ∃ c, (gate env b sender st).2 = set_checks c st.
Proof.
  destruct b; simpl.
  - destruct (accessCheck_frame env sender st) as [cs Hcs]. eauto.
  - exists (checks st). by destruct st.
Qed.


Lemma addTimeout_table zone x tag st :
  addTimeout zone x tag st =
    (Ok tt,
     set_timeouts (<[zone := <[x := tag]> (default ∅ (_timeouts st !! zone))]> (_timeouts st)) st).
Proof.
  unfold addTimeout, modify. f_equal. f_equal.
  destruct (_timeouts st !! zone) as [inner|] eqn:Hz.
  - by rewrite Hz.
  - rewrite lookup_insert_eq. simpl. by rewrite insert_insert_eq.
Qed.

Lemma add_generic_inv zone el T sender st _zone st1 :
  (0 < T)%Z →
  add_generic env zone el T sender st = (Ok _zone, st1) →
  ∃ e x1 c,
    entry_of env el = Ok e
    ∧ zone_add zone e (fw st) = Ok (_zone, x1)
    ∧ (gate env (calls_accessCheck el) sender st).1 = Ok tt
    ∧ st1 =
        {| fw := x1;
           _timeouts := <[_zone := <[timeout_key el := next_id (glib st)]>
                                     (default ∅ (_timeouts st !! _zone))]> (_timeouts st);
           glib := {| next_id := S (next_id (glib st));
                      sources := <[next_id (glib st) := (T, timeout_callback _zone el sender)]>
                                   (sources (glib st)) |};
           signals := signals st ++ [added_signal _zone el T];
           checks := c |}.
Proof.
  intros HT. unfold add_generic. unfold mbind at 1. unfold M_bind at 1.
  destruct (gate_frame (calls_accessCheck el) sender st) as [c Hc].
  destruct (gate env (calls_accessCheck el) sender st) as [[[]|err] sta] eqn:Hgate; [|done].
  simpl in Hc. subst sta.
  unfold mbind, M_bind, lift_result, lift_fw.
  destruct (entry_of env el) as [e|err]; [|done]. simpl.
  destruct (zone_add zone e (fw st)) as [[zn x1]|err] eqn:Hadd; [|done].
  unfold arm_timeout. rewrite decide_True by done.
  unfold mbind, M_bind, timeout_add_seconds. rewrite addTimeout_table.
  unfold emit, modify, mret, M_ret. simpl.
  intros [= <- <-]. exists e, x1, c. done.
Qed.

Lemma add_generic_signals zone el T sender st _zone st1 :
  add_generic env zone el T sender st = (Ok _zone, st1) →
  ∃ e x1, entry_of env el = Ok e
          ∧ zone_add zone e (fw st) = Ok (_zone, x1)
          ∧ signals st1 = signals st ++ [added_signal _zone el T].
Proof.
  unfold add_generic. unfold mbind at 1. unfold M_bind at 1.
  destruct (gate_frame (calls_accessCheck el) sender st) as [c Hc].
  destruct (gate env (calls_accessCheck el) sender st) as [[[]|err] sta]; [|done].
  simpl in Hc. subst sta.
  unfold mbind, M_bind, lift_result, lift_fw.
  destruct (entry_of env el) as [e|err]; [|done]. fields.
  destruct (zone_add zone e (fw st)) as [[zn x1]|err] eqn:Hadd; [|done].
  unfold arm_timeout. destruct (decide (0 < T)%Z).
  - unfold mbind, M_bind, timeout_add_seconds. rewrite addTimeout_table.
    unfold emit, modify, mret, M_ret. fields.
    intros [= <- <-]. exists e, x1. done.
  - unfold emit, modify, mret, M_ret. fields.
    intros [= <- <-]. exists e, x1. done.
Qed.

(** An add that raises has armed nothing. *)
Lemma add_generic_refused zone el T sender st err st1 :
  add_generic env zone el T sender st = (Raise err, st1) →
  _timeouts st1 = _timeouts st ∧ glib st1 = glib st.
Proof.
  unfold add_generic. unfold mbind at 1. unfold M_bind at 1.
  destruct (gate_frame (calls_accessCheck el) sender st) as [c Hc].
  destruct (gate env (calls_accessCheck el) sender st) as [[[]|err'] sta];
    simpl in Hc; subst sta; [|by intros [= _ <-]].
  unfold mbind, M_bind, lift_result, lift_fw.
  destruct (entry_of env el) as [e|err']; [|by intros [= _ <-]]. fields.
  destruct (zone_add zone e (fw st)) as [[zn x1]|err']; [|by intros [= _ <-]].
  unfold arm_timeout. destruct (decide (0 < T)%Z).
  - unfold mbind, M_bind, timeout_add_seconds. by rewrite addTimeout_table.
  - done.
Qed.



End TimedElements.


(** *** The timeout table *)

(** C5, as stated, fails: arming a timer for a key that already has an
    armed timer cancels nothing. A timed [addPort], a reload that drops
    the runtime port, and the same timed [addPort] again leave two live
    timers for the key [("public", ("80", "tcp"))]; the table knows the
    second one only, and the superseded first one still fires and removes
    the port. The same holds for the arming steps of [addPort] alone. *)
Lemma rearming_keeps_the_superseded_timer :
  let cb := CbPort "public" "80" "tcp" in
  let st1 := exec (addPort demo_env "public" "80" "tcp" 2 None) demo in
  let st2 := exec (reload demo_env None) st1 in
  let st3 := exec (addPort demo_env "public" "80" "tcp" 9 None) st2 in
  let st3' := exec (tag ← timeout_add_seconds 9 cb;
                    addTimeout "public" (KPair "80" "tcp") tag) st1 in
  timer_of "public" (KPair "80" "tcp") st2 = Some 1
  ∧ live_timers cb st2 = [1]
  ∧ eval (addPort demo_env "public" "80" "tcp" 9 None) st2 = Ok "public"
  ∧ timer_of "public" (KPair "80" "tcp") st3 = Some 2
  ∧ live_timers cb st3 = [2; 1]
  ∧ (λ r, (r.1, signals r.2)) <$> fire demo_env 1 st3
    = Some (Ok tt, [PortAdded "public" "80" "tcp" 2; Reloaded;
                    PortAdded "public" "80" "tcp" 9; PortRemoved "public" "80" "tcp"])
  ∧ live_timers cb st3' = [2; 1].
Proof. repeat split; vm_compute; reflexivity. Qed.

(** C5, as the code has it: [addTimeout] writes the tag of the new timer
    under the key and nothing else, so the table records one timer per
    key, the one armed last; it cancels no timer, the main loop is left
    as it is. A timed add arms its timer only after the core accepted the
    element, which was then not enabled in the zone, and an add that
    raises arms nothing. A timer that fired is gone from the main loop,
    so it fires at most once. *)
Theorem addTimeout_records_latest_timer env zone x tag st :
  let st' := exec (addTimeout zone x tag) st in
  timer_of zone x st' = Some tag
  ∧ _timeouts st' = <[zone := <[x := tag]> (default ∅ (_timeouts st !! zone))]> (_timeouts st)
  ∧ glib st' = glib st
  ∧ (∀ el T sender,
       match add_element env zone el T sender st with
       | (Ok _, _) => eval (query_element env zone el sender) st = Ok false
       | (Raise _, st1) => _timeouts st1 = _timeouts st ∧ glib st1 = glib st
       end)
  ∧ ∀ t, match fire env t st with
         | Some (_, st1) => fire env t st1 = None
         | None => True
         end.
Proof.
  unfold exec. rewrite addTimeout_table. fields. repeat split.
  - unfold timer_of. fields. rewrite lookup_insert_eq. cbn [mbind option_bind].
    by rewrite lookup_insert_eq.
  - intros el T sender.
    destruct (add_element env zone el T sender st) as [[_zone|err] st1] eqn:Hadd;
      rewrite add_element_generic in Hadd.
    + apply add_generic_signals in Hadd as (e & x1 & Hent & Hcore & _).
      unfold eval. rewrite query_element_generic.
      unfold query_generic, mbind, M_bind, lift_result, gets. rewrite Hent.
      cbn [fst]. f_equal. by apply zone_add_query in Hcore as [-> _].
    + by eapply add_generic_refused.
  - intros t. unfold fire.
    destruct (sources (glib st) !! t) as [[interval cb]|]; [|done].
    destruct (run_callback env cb st) as [r st1].
    unfold source_remove, modify. fields. by rewrite lookup_delete_eq.
Qed.

(** *** The zone of a mutator *)

Section ZoneResolution.
Variable env : Env.

Lemma for_each_emit l st :
  for_each l emit st = (Ok tt, set_signals (signals st ++ l) st).
Proof.
  revert st. induction l as [|s l IH]; intros st.
  - simpl. rewrite (right_id_L [] (++)). by destruct st.
  - simpl. unfold mbind, M_bind, emit at 1, modify. rewrite IH. fields.
    unfold set_signals. fields. by rewrite <- (assoc_L (++)).
Qed.

Lemma core_call_inv f sigs sender st _zone st1 :
  core_call env f sigs sender st = (Ok _zone, st1) →
  ∃ x1, f (fw st) = Ok (_zone, x1) ∧ fw st1 = x1
        ∧ signals st1 = signals st ++ sigs _zone.
Proof.
  unfold core_call. unfold mbind at 1. unfold M_bind at 1.
  destruct (accessCheck_frame env sender st) as [cs Hcs].
  destruct (accessCheck env sender st) as [[[]|err] sta]; [|done].
  simpl in Hcs. subst sta.
  unfold mbind, M_bind, lift_fw. fields.
  destruct (f (fw st)) as [[zn x1]|err]; [|done].
  rewrite for_each_emit. unfold mret, M_ret.
  intros [= <- <-]. exists x1. done.
Qed.

Lemma check_zone_empty x _zone :
  check_zone "" x = Ok _zone → _zone = default_zone x.
Proof. intros H. by apply check_zone_inv in H as [_ ->]. Qed.

Lemma add_interface_empty interface x _zone x1 :
  add_interface "" interface x = Ok (_zone, x1) → _zone = default_zone x.
Proof.
  unfold add_interface. destruct (check_zone "" x) as [zn|] eqn:Hcz; [|done].
  apply check_zone_empty in Hcz as ->.
  destruct (get_zone_of_interface interface x) as [zoi|].
  - by destruct (decide (zoi = default_zone x)).
  - by intros [= <- _].
Qed.

Lemma change_zone_of_interface_empty interface x _zone x1 :
  change_zone_of_interface "" interface x = Ok (_zone, x1) → _zone = default_zone x.
Proof.
  unfold change_zone_of_interface.
  destruct (check_zone "" x) as [zn|] eqn:Hcz; [|done].
  apply check_zone_empty in Hcz as ->. by intros [= <- _].
Qed.

Lemma remove_interface_empty interface x _zone x1 :
  remove_interface "" interface x = Ok (_zone, x1) →
  get_zone_of_interface interface x = Some _zone.
Proof.
  unfold remove_interface.
  destruct (get_zone_of_interface interface x) as [zoi|]; [|done].
  rewrite decide_True by done.
  rewrite decide_True by done. by intros [= <- _].
Qed.

Lemma add_source_empty source x _zone x1 :
  add_source "" source x = Ok (_zone, x1) → _zone = default_zone x.
Proof.
  unfold add_source. destruct (check_zone "" x) as [zn|] eqn:Hcz; [|done].
  apply check_zone_empty in Hcz as ->.
  destruct (get_zone_of_source source x) as [zos|].
  - by destruct (decide (zos = default_zone x)).
  - by intros [= <- _].
Qed.

Lemma change_zone_of_source_empty source x _zone x1 :
  change_zone_of_source "" source x = Ok (_zone, x1) → _zone = default_zone x.
Proof.
  unfold change_zone_of_source.
  destruct (check_zone "" x) as [zn|] eqn:Hcz; [|done].
  apply check_zone_empty in Hcz as ->. by intros [= <- _].
Qed.

Lemma remove_source_empty source x _zone x1 :
  remove_source "" source x = Ok (_zone, x1) →
  get_zone_of_source source x = Some _zone.
Proof.
  unfold remove_source.
  destruct (get_zone_of_source source x) as [zos|]; [|done].
  rewrite decide_True by done.
  rewrite decide_True by done. by intros [= <- _].
Qed.

Lemma zone_remove_empty e x _zone x1 :
  zone_remove "" e x = Ok (_zone, x1) → _zone = default_zone x.
Proof.
  unfold zone_remove. destruct (check_zone "" x) as [zn|] eqn:Hcz; [|done].
  apply check_zone_empty in Hcz as ->.
  destruct (decide (e ∈ _)); [|done]. by intros [= <- _].
Qed.

Lemma remove_generic_signals zone el sender st _zone st1 :
  remove_generic env zone el sender st = (Ok _zone, st1) →
  ∃ e x1, zone_remove zone e (fw st) = Ok (_zone, x1)
          ∧ signals st1 = signals st ++ [removed_signal _zone el].
Proof.
  unfold remove_generic. unfold mbind at 1. unfold M_bind at 1.
  destruct (gate_frame env (calls_accessCheck el) sender st) as [c Hc].
  destruct (gate env (calls_accessCheck el) sender st) as [[[]|err] sta]; [|done].
  simpl in Hc. subst sta.
  unfold mbind, M_bind, lift_result, lift_fw.
  destruct (entry_of env el) as [e|err]; [|done]. fields.
  destruct (zone_remove zone e (fw st)) as [[zn x1]|err] eqn:Hrm; [|done].
  unfold removeTimeout, mbind, M_bind, gets. fields.
  destruct (_timeouts st !! zn) as [inner|].
  - destruct (inner !! timeout_key el).
    + unfold emit, source_remove, modify, mret, M_ret. fields.
      intros [= <- <-]. exists e, x1. done.
    + unfold emit, modify, mret, M_ret. fields.
      intros [= <- <-]. exists e, x1. done.
  - unfold emit, modify, mret, M_ret. fields.
    intros [= <- <-]. exists e, x1. done.
Qed.

Lemma mutator_signals_zone zone m :
  Forall (λ s, signal_zone s = Some zone) (mutator_signals zone m).
Proof.
  destruct m as [| | | | | | |el timeout|el]; try destruct el;
    repeat constructor.
Qed.

(** C8, as the code has it: a mutator of the zone interface called with
    the empty string as zone resolves it to the default zone, except
    [removeInterface] and [removeSource], which resolve it to the zone
    that the interface or source is bound to; in every case the resolved
    name is the return value and the zone in the payload of each signal
    that the call emits. *)
Theorem empty_zone_is_resolved m sender st _zone st1 :
  run_mutator env "" m sender st = (Ok _zone, st1) →
  resolved_zone m (fw st) = Some _zone
  ∧ signals st1 = signals st ++ mutator_signals _zone m
  ∧ Forall (λ s, signal_zone s = Some _zone) (mutator_signals _zone m).
Proof.
  intros Hrun.
  assert (Hres : resolved_zone m (fw st) = Some _zone
                 ∧ signals st1 = signals st ++ mutator_signals _zone m);
    [|destruct Hres; auto using mutator_signals_zone].
  destruct m as [i|i|i|i|s|s|s|el T|el]; cbn [run_mutator resolved_zone mutator_signals] in *.
  - change (core_call env (add_interface "" i) (λ z, [InterfaceAdded z i]) sender st
            = (Ok _zone, st1)) in Hrun.
    apply core_call_inv in Hrun as (x1 & Hf & _ & Hsig).
    by apply add_interface_empty in Hf as ->.
  - change (core_call env (change_zone_of_interface "" i)
              (λ z, [ZoneChanged z i; ZoneOfInterfaceChanged z i]) sender st
            = (Ok _zone, st1)) in Hrun.
    apply core_call_inv in Hrun as (x1 & Hf & _ & Hsig).
    by apply change_zone_of_interface_empty in Hf as ->.
  - change (core_call env (change_zone_of_interface "" i)
              (λ z, [ZoneChanged z i; ZoneOfInterfaceChanged z i]) sender st
            = (Ok _zone, st1)) in Hrun.
    apply core_call_inv in Hrun as (x1 & Hf & _ & Hsig).
    by apply change_zone_of_interface_empty in Hf as ->.
  - change (core_call env (remove_interface "" i) (λ z, [InterfaceRemoved z i]) sender st
            = (Ok _zone, st1)) in Hrun.
    apply core_call_inv in Hrun as (x1 & Hf & _ & Hsig).
    by apply remove_interface_empty in Hf.
  - change (core_call env (add_source "" s) (λ z, [SourceAdded z s]) sender st
            = (Ok _zone, st1)) in Hrun.
    apply core_call_inv in Hrun as (x1 & Hf & _ & Hsig).
    by apply add_source_empty in Hf as ->.
  - change (core_call env (change_zone_of_source "" s) (λ z, [ZoneOfSourceChanged z s])
              sender st = (Ok _zone, st1)) in Hrun.
    apply core_call_inv in Hrun as (x1 & Hf & _ & Hsig).
    by apply change_zone_of_source_empty in Hf as ->.
  - change (core_call env (remove_source "" s) (λ z, [SourceRemoved z s]) sender st
            = (Ok _zone, st1)) in Hrun.
    apply core_call_inv in Hrun as (x1 & Hf & _ & Hsig).
    by apply remove_source_empty in Hf.
  - rewrite add_element_generic in Hrun.
    apply add_generic_signals in Hrun as (e & x1 & _ & Hadd & Hsig).
    apply zone_add_inv in Hadd as (z & Hcz & _).
    by apply check_zone_empty in Hcz as ->.
  - rewrite remove_element_generic in Hrun.
    apply remove_generic_signals in Hrun as (e & x1 & Hrm & Hsig).
    by apply zone_remove_empty in Hrm as ->.
Qed.

End ZoneResolution.

(** C8, as stated, fails: with [public] as default zone and [eth0] bound
    to [work], [removeInterface] called with the empty zone returns
    [work] and signals [InterfaceRemoved] for [work]. *)
Lemma removeInterface_empty_zone_is_not_default :
  default_zone (fw demo) = "public"
  ∧ eval (removeInterface demo_env "" "eth0" None) demo = Ok "work"
  ∧ signals (exec (removeInterface demo_env "" "eth0" None) demo)
    = [InterfaceRemoved "work" "eth0"]
  ∧ eval (removeInterface demo_env "" "eth0" None) demo ≠ Ok (default_zone (fw demo)).
Proof. repeat split; try (vm_compute; reflexivity). vm_compute. discriminate. Qed.

Lemma empty_zone_is_resolved_witness :
  run_mutator demo_env "" (MAddElement (ElService "ssh") 0) (Some ":1.5") demo
    = (Ok "public", exec (addService demo_env "" "ssh" 0 (Some ":1.5")) demo)
  ∧ resolved_zone (MAddElement (ElService "ssh") 0) (fw demo) = Some "public"
  ∧ signals (exec (addService demo_env "" "ssh" 0 (Some ":1.5")) demo)
    = signals demo ++ [ServiceAdded "public" "ssh" 0].
Proof.
  assert (H1 : run_mutator demo_env "" (MAddElement (ElService "ssh") 0) (Some ":1.5") demo
    = (Ok "public", exec (addService demo_env "" "ssh" 0 (Some ":1.5")) demo))
    by (vm_compute; reflexivity).
  split; [exact H1|].
  destruct (empty_zone_is_resolved demo_env _ _ _ _ _ H1) as (H2 & H3 & _).
  split; [exact H2|exact H3].
Defined.

(** ** Further properties *)

(** *** The timeout table *)

Lemma timer_of_set_table (zone : string) (inner' : gmap tkey nat) zone' x' st st' :
  _timeouts st' = <[zone := inner']> (_timeouts st) →
  timer_of zone' x' st' =
    if decide (zone' = zone) then inner' !! x' else timer_of zone' x' st.
Proof.
  intros Ht. unfold timer_of. rewrite Ht.
  destruct (decide (zone' = zone)) as [->|Hne].
  - by rewrite lookup_insert_eq.
  - by rewrite lookup_insert_ne.
Qed.

Lemma removeTimeout_run zone x st :
  removeTimeout zone x st =
    match _timeouts st !! zone with
    | Some inner =>
        match inner !! x with
        | Some tag =>
            (Ok tt, set_timeouts (<[zone := delete x inner]> (_timeouts st))
                      (set_glib (without_source tag (glib st)) st))
        | None => (Ok tt, st)
        end
    | None => (Ok tt, st)
    end.
Proof.
  unfold removeTimeout, mbind, M_bind, gets.
  destruct (_timeouts st !! zone) as [inner|]; [|done].
  destruct (inner !! x) as [tag|]; done.
Qed.

(** [removeTimeout(zone, x)] always returns; afterwards no timer is
    recorded under the key. A timer that was recorded under it is the
    one source that is cancelled; the timers recorded under every other
    key stay recorded, the core and the signals are left alone; and
    when nothing was recorded under the key, nothing changes at all. *)
Theorem removeTimeout_cancels_exactly zone x st :
  ∃ st',
    removeTimeout zone x st = (Ok tt, st')
    ∧ timer_of zone x st' = None
    ∧ glib st' = match timer_of zone x st with
                 | Some tag => without_source tag (glib st)
                 | None => glib st
                 end
    ∧ (∀ zone' x', (zone', x') ≠ (zone, x) →
         timer_of zone' x' st' = timer_of zone' x' st)
    ∧ fw st' = fw st ∧ signals st' = signals st
    ∧ (timer_of zone x st = None → st' = st).
Proof.
  rewrite removeTimeout_run.
  destruct (_timeouts st !! zone) as [inner|] eqn:Hz.
  - destruct (inner !! x) as [tag|] eqn:Hx.
    + assert (Ht : timer_of zone x st = Some tag).
      { unfold timer_of. rewrite Hz. exact Hx. }
      rewrite Ht. eexists. split; [reflexivity|]. repeat split.
      * rewrite (timer_of_set_table zone (delete x inner) zone x st) by reflexivity.
        rewrite decide_True by done. apply lookup_delete_eq.
      * intros zone' x' Hne.
        rewrite (timer_of_set_table zone (delete x inner) zone' x' st) by reflexivity.
        destruct (decide (zone' = zone)) as [->|]; [|done].
        rewrite lookup_delete_ne by congruence.
        unfold timer_of. by rewrite Hz.
      * intros Hnone. congruence.
    + assert (Ht : timer_of zone x st = None).
      { unfold timer_of. rewrite Hz. exact Hx. }
      rewrite Ht. exists st. by repeat split.
  - assert (Ht : timer_of zone x st = None).
    { unfold timer_of. by rewrite Hz. }
    rewrite Ht. exists st. by repeat split.
Qed.

(** [cleanup_timeouts()] empties the table and cancels every timer that
    the table recorded, and only those: a source whose tag is not in the
    table stays live. The core and the signals are left alone. *)
Theorem cleanup_timeouts_cancels_the_table st :
  ∃ st',
    cleanup_timeouts st = (Ok tt, st')
    ∧ _timeouts st' = ∅
    ∧ (∀ t, sources (glib st') !! t =
            if decide (t ∈ all_tags (_timeouts st)) then None
            else sources (glib st) !! t)
    ∧ (∀ zone x tag, timer_of zone x st = Some tag → tag ∈ all_tags (_timeouts st))
    ∧ fw st' = fw st ∧ signals st' = signals st.
Proof.
  unfold cleanup_timeouts, mbind, M_bind, gets.
  destruct (for_each_source_remove (all_tags (_timeouts st)) st)
    as (st' & Hrun & Hfw & _ & Hsig & Hsrc).
  rewrite Hrun. unfold modify. eexists. split; [reflexivity|].
  repeat split; try done.
  intros zone x tag. apply timer_in_all_tags.
Qed.

(** *** Expiry callbacks *)

Section Expiry.
Variable env : Env.

Lemma del_timeout_run zone x st :
  del_timeout zone x st =
    match _timeouts st !! zone with
    | Some inner =>
        match inner !! x with
        | Some _ => (Ok tt, set_timeouts (<[zone := delete x inner]> (_timeouts st)) st)
        | None => (Raise KeyError, st)
        end
    | None => (Raise KeyError, st)
    end.
Proof.
  unfold del_timeout, mbind, M_bind, gets.
  destruct (_timeouts st !! zone) as [inner|]; [|done].
  destruct (inner !! x); done.
Qed.

Lemma del_timeout_absent zone x st :
  timer_of zone x st = None → del_timeout zone x st = (Raise KeyError, st).
Proof.
  rewrite del_timeout_run. unfold timer_of.
  destruct (_timeouts st !! zone) as [inner|]; [|done]. cbn [mbind option_bind].
  by intros ->.
Qed.

Lemma del_timeout_present zone x st :
  is_Some (timer_of zone x st) →
  ∃ st', del_timeout zone x st = (Ok tt, st')
         ∧ timer_of zone x st' = None
         ∧ fw st' = fw st ∧ glib st' = glib st ∧ signals st' = signals st
         ∧ checks st' = checks st.
Proof.
  rewrite del_timeout_run. unfold timer_of at 1.
  destruct (_timeouts st !! zone) as [inner|] eqn:Hz; cbn [mbind option_bind];
    [|by intros [? ?]].
  intros [tag Hx]. rewrite Hx. eexists. split; [reflexivity|].
  repeat split.
  rewrite (timer_of_set_table zone (delete x inner) zone x st) by reflexivity.
  rewrite decide_True by done. apply lookup_delete_eq.
Qed.

(** When the timer of an element fires and the timeout table holds no
    entry under the key of the element, the expiry callback stops with
    [KeyError] at its first statement: the element is not removed from
    the core, no signal is emitted, and only the fired source is gone. *)
Theorem expiry_without_table_entry tag T zone el sender st :
  sources (glib st) !! tag = Some (T, timeout_callback zone el sender) →
  timer_of zone (timeout_key el) st = None →
  fire env tag st = Some (Raise KeyError, set_glib (without_source tag (glib st)) st).
Proof.
  intros Hsrc Hnone. unfold fire. rewrite Hsrc, run_callback_generic.
  unfold disable_generic. unfold mbind at 1. unfold M_bind at 1.
  by rewrite (del_timeout_absent _ _ _ Hnone).
Qed.

(** When the expiry callback of an element runs and the core refuses to
    remove the element (it is no longer enabled, as after a reload), the
    entry of the timeout table has been deleted all the same, the error
    of the core leaves the callback, and no signal is emitted. *)
Theorem expiry_of_a_lost_element zone el sender st e err :
  is_Some (timer_of zone (timeout_key el) st) →
  entry_of env el = Ok e →
  zone_remove zone e (fw st) = Raise err →
  ∃ st1,
    run_callback env (timeout_callback zone el sender) st = (Raise err, st1)
    ∧ timer_of zone (timeout_key el) st1 = None
    ∧ fw st1 = fw st ∧ glib st1 = glib st ∧ signals st1 = signals st.
Proof.
  intros Hsome Hent Hrm. rewrite run_callback_generic.
  destruct (del_timeout_present _ _ _ Hsome) as (st' & Hdel & Hnone & Hfw & Hg & Hsig & _).
  unfold disable_generic. unfold mbind at 1. unfold M_bind at 1. rewrite Hdel.
  unfold mbind, M_bind, lift_result, lift_fw. rewrite Hent, Hfw, Hrm.
  exists st'. done.
Qed.

End Expiry.

Lemma expiry_without_table_entry_witness :
  let st := set_timeouts ∅ (exec (addPort demo_env "public" "80" "tcp" 2 None) demo) in
  sources (glib st) !! 1 = Some (2%Z, timeout_callback "public" (ElPort "80" "tcp") None)
  ∧ timer_of "public" (timeout_key (ElPort "80" "tcp")) st = None
  ∧ fire demo_env 1 st
    = Some (Raise KeyError, set_glib (without_source 1 (glib st)) st).
Proof.
  set (st := set_timeouts ∅ (exec (addPort demo_env "public" "80" "tcp" 2 None) demo)).
  assert (H1 : sources (glib st) !! 1
    = Some (2%Z, timeout_callback "public" (ElPort "80" "tcp") None))
    by (vm_compute; reflexivity).
  assert (H2 : timer_of "public" (timeout_key (ElPort "80" "tcp")) st = None)
    by (vm_compute; reflexivity).
  split; [exact H1|]. split; [exact H2|].
  exact (expiry_without_table_entry demo_env 1 2 "public" (ElPort "80" "tcp") None st H1 H2).
Defined.

Lemma expiry_of_a_lost_element_witness :
  let st := exec (reload demo_env None)
              (exec (addPort demo_env "public" "80" "tcp" 2 None) demo) in
  is_Some (timer_of "public" (timeout_key (ElPort "80" "tcp")) st)
  ∧ entry_of demo_env (ElPort "80" "tcp") = Ok (EPort "80" "tcp")
  ∧ zone_remove "public" (EPort "80" "tcp") (fw st)
    = Raise (FirewallError NOT_ENABLED "public")
  ∧ ∃ st1,
      run_callback demo_env (timeout_callback "public" (ElPort "80" "tcp") None) st
      = (Raise (FirewallError NOT_ENABLED "public"), st1)
      ∧ timer_of "public" (timeout_key (ElPort "80" "tcp")) st1 = None.
Proof.
  set (st := exec (reload demo_env None)
               (exec (addPort demo_env "public" "80" "tcp" 2 None) demo)).
  assert (H1 : is_Some (timer_of "public" (timeout_key (ElPort "80" "tcp")) st))
    by (exists 1; vm_compute; reflexivity).
  assert (H2 : entry_of demo_env (ElPort "80" "tcp") = Ok (EPort "80" "tcp"))
    by reflexivity.
  assert (H3 : zone_remove "public" (EPort "80" "tcp") (fw st)
    = Raise (FirewallError NOT_ENABLED "public")) by (vm_compute; reflexivity).
  split; [exact H1|]. split; [exact H2|]. split; [exact H3|].
  destruct (expiry_of_a_lost_element demo_env "public" (ElPort "80" "tcp") None st _ _ H1 H2 H3)
    as (st1 & Hrun & Hnone & _).
  exists st1. split; [exact Hrun|exact Hnone].
Defined.

(** *** Mutators of the zone interface *)

Section Mutators.
Variable env : Env.

Lemma bind_raise {A B} (m : M A) (k : A → M B) st e st' :
  m st = (Raise e, st') → (m ≫= k) st = (Raise e, st').
Proof. intros H. unfold mbind, M_bind. by rewrite H. Qed.

Lemma add_generic_untimed zone el T sender st _zone st1 :
  ¬ (0 < T)%Z →
  add_generic env zone el T sender st = (Ok _zone, st1) →
  ∃ e x1 c,
    entry_of env el = Ok e
    ∧ zone_add zone e (fw st) = Ok (_zone, x1)
    ∧ st1 = {| fw := x1; _timeouts := _timeouts st; glib := glib st;
               signals := signals st ++ [added_signal _zone el T];
               checks := c |}.
Proof.
  intros HT. unfold add_generic. unfold mbind at 1. unfold M_bind at 1.
  destruct (gate_frame env (calls_accessCheck el) sender st) as [c Hc].
  destruct (gate env (calls_accessCheck el) sender st) as [[[]|err] sta]; [|done].
  simpl in Hc. subst sta.
  unfold mbind, M_bind, lift_result, lift_fw.
  destruct (entry_of env el) as [e|err]; [|done]. fields.
  destruct (zone_add zone e (fw st)) as [[zn x1]|err] eqn:Hadd; [|done].
  unfold arm_timeout. rewrite decide_False by done.
  unfold emit, modify, mret, M_ret. fields.
  intros [= <- <-]. exists e, x1, c. done.
Qed.

(** An [add...] called with a timeout that is not positive arms no
    timer: when it succeeds, the timeout table and the main loop are as
    before, the element is enabled, and the one signal emitted carries
    the timeout as it was given. *)
Theorem add_without_timeout_arms_nothing zone el T sender st _zone st1 :
  (T ≤ 0)%Z →
  add_element env zone el T sender st = (Ok _zone, st1) →
  _timeouts st1 = _timeouts st ∧ glib st1 = glib st
  ∧ signals st1 = signals st ++ [added_signal _zone el T]
  ∧ eval (query_element env zone el sender) st1 = Ok true.
Proof.
  intros HT Hadd. rewrite add_element_generic in Hadd.
  apply add_generic_untimed in Hadd as (e & x1 & c & Hent & Hcore & ->); [|lia].
  repeat split. unfold eval. rewrite query_element_generic.
  unfold query_generic, mbind, M_bind, lift_result, gets. rewrite Hent. fields.
  f_equal. by apply zone_add_query in Hcore as [_ ->].
Qed.

Lemma core_call_refused f sigs sender st e st1 :
  core_call env f sigs sender st = (Raise e, st1) →
  fw st1 = fw st ∧ _timeouts st1 = _timeouts st ∧ glib st1 = glib st
  ∧ signals st1 = signals st.
Proof.
  unfold core_call. unfold mbind at 1. unfold M_bind at 1.
  destruct (accessCheck_frame env sender st) as [cs Hcs].
  destruct (accessCheck env sender st) as [[[]|err] sta];
    simpl in Hcs; subst sta; [|by intros [= _ <-]].
  unfold mbind, M_bind, lift_fw. fields.
  destruct (f (fw st)) as [[zn x1]|err]; [|by intros [= _ <-]].
  by rewrite for_each_emit.
Qed.

Lemma add_generic_refused_all zone el T sender st e st1 :
  add_generic env zone el T sender st = (Raise e, st1) →
  fw st1 = fw st ∧ _timeouts st1 = _timeouts st ∧ glib st1 = glib st
  ∧ signals st1 = signals st.
Proof.
  unfold add_generic. unfold mbind at 1. unfold M_bind at 1.
  destruct (gate_frame env (calls_accessCheck el) sender st) as [c Hc].
  destruct (gate env (calls_accessCheck el) sender st) as [[[]|err'] sta];
    simpl in Hc; subst sta; [|by intros [= _ <-]].
  unfold mbind, M_bind, lift_result, lift_fw.
  destruct (entry_of env el) as [e'|err']; [|by intros [= _ <-]]. fields.
  destruct (zone_add zone e' (fw st)) as [[zn x1]|err']; [|by intros [= _ <-]].
  unfold arm_timeout. destruct (decide (0 < T)%Z).
  - unfold mbind, M_bind, timeout_add_seconds. by rewrite addTimeout_table.
  - done.
Qed.

Lemma remove_generic_run zone el sender st :
  ∃ c, remove_generic env zone el sender st =
    match (gate env (calls_accessCheck el) sender st).1 with
    | Raise err => (Raise err, set_checks c st)
    | Ok _ =>
      match entry_of env el with
      | Raise err => (Raise err, set_checks c st)
      | Ok e =>
        match zone_remove zone e (fw st) with
        | Raise err => (Raise err, set_checks c st)
        | Ok (_zone, x1) =>
            (Ok _zone,
             {| fw := x1;
                _timeouts :=
                  match timer_of _zone (timeout_key el) st with
                  | Some _ => <[_zone := delete (timeout_key el)
                                           (default ∅ (_timeouts st !! _zone))]> (_timeouts st)
                  | None => _timeouts st
                  end;
                glib :=
                  match timer_of _zone (timeout_key el) st with
                  | Some tag => without_source tag (glib st)
                  | None => glib st
                  end;
                signals := signals st ++ [removed_signal _zone el];
                checks := c |})
        end
      end
    end.
Proof.
  destruct (gate_frame env (calls_accessCheck el) sender st) as [c Hc]. exists c.
  unfold remove_generic. unfold mbind at 1. unfold M_bind at 1.
  destruct (gate env (calls_accessCheck el) sender st) as [[[]|err] sta];
    simpl in Hc; subst sta; cbn [fst]; [|done].
  unfold mbind, M_bind, lift_result, lift_fw.
  destruct (entry_of env el) as [e|err]; [|done]. fields.
  destruct (zone_remove zone e (fw st)) as [[zn x1]|err]; [|done].
  rewrite removeTimeout_run. fields. unfold timer_of.
  destruct (_timeouts st !! zn) as [inner|]; cbn [mbind option_bind default from_option id];
    [|done].
  destruct (inner !! timeout_key el); done.
Qed.

(** A mutator of the zone interface that raises has changed nothing but
    the trace of the lockdown checks: the core, the timeout table and
    the main loop are as before and no signal was emitted. *)
Theorem failed_mutator_changes_nothing zone m sender st e st1 :
  run_mutator env zone m sender st = (Raise e, st1) →
  fw st1 = fw st ∧ _timeouts st1 = _timeouts st ∧ glib st1 = glib st
  ∧ signals st1 = signals st.
Proof.
  destruct m as [i|i|i|i|s|s|s|el T|el]; cbn [run_mutator]; intros Hrun.
  - by apply (core_call_refused (add_interface zone i) (λ z, [InterfaceAdded z i])) in Hrun.
  - by apply (core_call_refused (change_zone_of_interface zone i)
                (λ z, [ZoneChanged z i; ZoneOfInterfaceChanged z i])) in Hrun.
  - by apply (core_call_refused (change_zone_of_interface zone i)
                (λ z, [ZoneChanged z i; ZoneOfInterfaceChanged z i])) in Hrun.
  - by apply (core_call_refused (remove_interface zone i) (λ z, [InterfaceRemoved z i])) in Hrun.
  - by apply (core_call_refused (add_source zone s) (λ z, [SourceAdded z s])) in Hrun.
  - by apply (core_call_refused (change_zone_of_source zone s)
                (λ z, [ZoneOfSourceChanged z s])) in Hrun.
  - by apply (core_call_refused (remove_source zone s) (λ z, [SourceRemoved z s])) in Hrun.
  - rewrite add_element_generic in Hrun. by eapply add_generic_refused_all.
  - rewrite remove_element_generic in Hrun.
    destruct (remove_generic_run zone el sender st) as [c Hc]. rewrite Hc in Hrun.
    destruct ((gate env (calls_accessCheck el) sender st).1); [|by injection Hrun as _ <-].
    destruct (entry_of env el) as [e'|]; [|by injection Hrun as _ <-].
    destruct (zone_remove zone e' (fw st)) as [[zn x1]|]; [done|by injection Hrun as _ <-].
Qed.

(** When the caller is refused by [accessCheck], a mutator of the zone
    interface that calls it (every one but [addRichRule] and
    [removeRichRule]) raises that very error before anything else
    happens: whatever its other arguments, valid or not, only the trace
    of the lockdown checks changes. *)
Theorem lockdown_denial_aborts_mutator zone m sender st e :
  mutator_checked m = true →
  (accessCheck env sender st).1 = Raise e →
  ∃ cs, run_mutator env zone m sender st = (Raise e, set_checks (checks st ++ cs) st).
Proof.
  intros Hchecked Hdenied.
  destruct (accessCheck_frame env sender st) as [cs Hcs]. exists cs.
  assert (Hacc : accessCheck env sender st = (Raise e, set_checks (checks st ++ cs) st)).
  { destruct (accessCheck env sender st) as [r s']. simpl in *. by subst. }
  destruct m as [i|i|i|i|s|s|s|el T|el]; cbn [run_mutator];
    try (by apply bind_raise).
  - destruct el; try discriminate; by apply bind_raise.
  - destruct el; try discriminate; by apply bind_raise.
Qed.

End Mutators.

Lemma add_without_timeout_arms_nothing_witness :
  (0 ≤ 0)%Z
  ∧ add_element demo_env "" (ElService "ssh") 0 None demo
    = (Ok "public", exec (addService demo_env "" "ssh" 0 None) demo)
  ∧ glib (exec (addService demo_env "" "ssh" 0 None) demo) = glib demo.
Proof.
  assert (H1 : (0 ≤ 0)%Z) by lia.
  assert (H2 : add_element demo_env "" (ElService "ssh") 0 None demo
    = (Ok "public", exec (addService demo_env "" "ssh" 0 None) demo))
    by (vm_compute; reflexivity).
  split; [exact H1|]. split; [exact H2|].
  exact (proj1 (proj2 (add_without_timeout_arms_nothing demo_env _ _ _ _ _ _ _ H1 H2))).
Defined.

Lemma failed_mutator_changes_nothing_witness :
  run_mutator demo_env "nowhere" (MAddElement (ElPort "80" "tcp") 5) None demo
    = (Raise (FirewallError INVALID_ZONE "nowhere"), demo)
  ∧ signals demo = signals demo.
Proof.
  assert (H1 : run_mutator demo_env "nowhere" (MAddElement (ElPort "80" "tcp") 5) None demo
    = (Raise (FirewallError INVALID_ZONE "nowhere"), demo)) by (vm_compute; reflexivity).
  split; [exact H1|].
  exact (proj2 (proj2 (proj2 (failed_mutator_changes_nothing demo_env _ _ _ _ _ _ H1)))).
Defined.

Lemma lockdown_denial_aborts_mutator_witness :
  mutator_checked (MAddInterface "eth1") = true
  ∧ (accessCheck demo_env (Some ":1.5") demo_locked).1
    = Raise (FirewallError ACCESS_DENIED "lockdown is enabled")
  ∧ ∃ cs, run_mutator demo_env "nowhere" (MAddInterface "eth1") (Some ":1.5") demo_locked
          = (Raise (FirewallError ACCESS_DENIED "lockdown is enabled"),
             set_checks (checks demo_locked ++ cs) demo_locked).
Proof.
  assert (H1 : mutator_checked (MAddInterface "eth1") = true) by reflexivity.
  assert (H2 : (accessCheck demo_env (Some ":1.5") demo_locked).1
    = Raise (FirewallError ACCESS_DENIED "lockdown is enabled")) by (vm_compute; reflexivity).
  split; [exact H1|]. split; [exact H2|].
  exact (lockdown_denial_aborts_mutator demo_env "nowhere" _ _ _ _ H1 H2).
Defined.

(** *** Removing a timed element *)

Lemma zone_remove_inv zone e x _zone x1 :
  zone_remove zone e x = Ok (_zone, x1) →
  ∃ z, check_zone zone x = Ok _zone ∧ zones x !! _zone = Some z
       ∧ e ∈ z_entries z
       ∧ x1 = set_zones (insert _zone (set_entries (filter (λ y, y ≠ e) (z_entries z)) z)) x.
Proof.
  unfold zone_remove.
  destruct (check_zone zone x) as [zn|] eqn:Hcz; [|done].
  destruct (check_zone_inv _ _ _ Hcz) as [[z Hz] _]. rewrite Hz.
  cbn [default from_option id].
  destruct (decide (e ∈ z_entries z)); [|done].
  intros [= <- <-]. eauto.
Qed.

Lemma zone_query_insert zone e x k z v :
  zones x !! k = Some z →
  zone_query zone e (set_zones (insert k v) x) =
    match check_zone zone x with
    | Ok _zone =>
        if decide (_zone = k) then bool_decide (e ∈ z_entries v)
        else zone_query zone e x
    | Raise _ => false
    end.
Proof.
  intros Hz. unfold zone_query. rewrite check_zone_insert by eauto.
  destruct (check_zone zone x) as [zn|]; [|done].
  unfold set_zones. cbn [zones].
  destruct (decide (zn = k)) as [->|Hne].
  - by rewrite lookup_insert_eq.
  - by rewrite lookup_insert_ne.
Qed.

Lemma zone_remove_query zone e x _zone x1 :
  zone_remove zone e x = Ok (_zone, x1) →
  zone_query zone e x1 = false
  ∧ ∀ zone' e', e' ≠ e → zone_query zone' e' x1 = zone_query zone' e' x.
Proof.
  intros H. apply zone_remove_inv in H as (z & Hcz & Hz & Hin & ->). split.
  - rewrite (zone_query_insert _ _ _ _ _ _ Hz), Hcz, decide_True by done.
    apply bool_decide_eq_false. cbn [z_entries set_entries].
    rewrite list_elem_of_filter. tauto.
  - intros zone' e' Hne. rewrite (zone_query_insert _ _ _ _ _ _ Hz).
    unfold zone_query. destruct (check_zone zone' x) as [zn|]; [|done].
    destruct (decide (zn = _zone)) as [->|]; [|done].
    rewrite Hz. cbn [z_entries set_entries]. apply bool_decide_ext.
    rewrite list_elem_of_filter. tauto.
Qed.

Lemma zone_add_query_other zone e x _zone x1 zone' e' :
  zone_add zone e x = Ok (_zone, x1) → e' ≠ e →
  zone_query zone' e' x1 = zone_query zone' e' x.
Proof.
  intros H Hne. apply zone_add_inv in H as (z & Hcz & Hz & Hn & ->).
  rewrite (zone_query_insert _ _ _ _ _ _ Hz).
  unfold zone_query. destruct (check_zone zone' x) as [zn|]; [|done].
  destruct (decide (zn = _zone)) as [->|]; [|done].
  rewrite Hz. cbn [z_entries set_entries]. apply bool_decide_ext.
  rewrite elem_of_app, list_elem_of_singleton. tauto.
Qed.

Section RemoveTimed.
Variable env : Env.

Lemma remove_generic_inv zone el sender st _zone st1 :
  remove_generic env zone el sender st = (Ok _zone, st1) →
  ∃ e,
    entry_of env el = Ok e
    ∧ zone_remove zone e (fw st) = Ok (_zone, fw st1)
    ∧ timer_of _zone (timeout_key el) st1 = None
    ∧ glib st1 = match timer_of _zone (timeout_key el) st with
                 | Some tag => without_source tag (glib st)
                 | None => glib st
                 end
    ∧ signals st1 = signals st ++ [removed_signal _zone el].
Proof.
  destruct (remove_generic_run env zone el sender st) as [c Hc]. rewrite Hc.
  destruct ((gate env (calls_accessCheck el) sender st).1); [|done].
  destruct (entry_of env el) as [e|] eqn:Hent; [|done].
  destruct (zone_remove zone e (fw st)) as [[zn x1]|] eqn:Hrm; [|done].
  intros [= <- <-]. exists e. fields.
  split; [done|]. split; [exact Hrm|]. split; [|done].
  unfold timer_of. fields.
  destruct (_timeouts st !! zn) as [inner|] eqn:Hz; cbn [mbind option_bind].
  - destruct (inner !! timeout_key el) eqn:Hx.
    + rewrite lookup_insert_eq. cbn [mbind option_bind default from_option id].
      apply lookup_delete_eq.
    + rewrite ?Hz. cbn [mbind option_bind]. exact Hx.
  - rewrite ?Hz. done.
Qed.

(** A [remove...] that succeeds leaves the element disabled, emits one
    [...Removed] signal, and cancels the timer that the timeout table
    records under the key of the element, if there is one, and no other
    source; afterwards the table has no entry under the key. *)
Theorem remove_cancels_the_recorded_timer zone el sender st _zone st1 :
  remove_element env zone el sender st = (Ok _zone, st1) →
  eval (query_element env zone el sender) st1 = Ok false
  ∧ signals st1 = signals st ++ [removed_signal _zone el]
  ∧ timer_of _zone (timeout_key el) st1 = None
  ∧ glib st1 = match timer_of _zone (timeout_key el) st with
               | Some tag => without_source tag (glib st)
               | None => glib st
               end.
Proof.
  intros Hrun. rewrite remove_element_generic in Hrun.
  apply remove_generic_inv in Hrun as (e & Hent & Hrm & Hnone & Hglib & Hsig).
  repeat split; try done.
  unfold eval. rewrite query_element_generic.
  unfold query_generic, mbind, M_bind, lift_result, gets. rewrite Hent. fields.
  f_equal. by apply zone_remove_query in Hrm as [-> _].
Qed.

(** The key of the timeout table does not name the kind of the element.
    When two different elements with the same key are added with a
    timeout to the same zone, one after the other, and the first is then
    removed, it is the timer of the second that is cancelled: the second
    element stays enabled with no timer recorded and no live source, and
    the timer of the first is still live. *)
Theorem shared_key_remove_cancels_the_other
    zone el1 el2 T1 T2 sender st z1 st1 z2 st2 z3 st3 :
  (0 < T1)%Z → (0 < T2)%Z →
  timeout_key el1 = timeout_key el2 →
  add_element env zone el1 T1 sender st = (Ok z1, st1) →
  add_element env zone el2 T2 sender st1 = (Ok z2, st2) →
  remove_element env zone el1 sender st2 = (Ok z3, st3) →
  let tag1 := next_id (glib st) in
  let tag2 := S tag1 in
  z2 = z1 ∧ z3 = z1
  ∧ sources (glib st2) !! tag2 = Some (T2, timeout_callback z1 el2 sender)
  ∧ sources (glib st3) !! tag2 = None
  ∧ sources (glib st3) !! tag1 = Some (T1, timeout_callback z1 el1 sender)
  ∧ timer_of z1 (timeout_key el2) st3 = None
  ∧ eval (query_element env zone el2 sender) st3 = Ok true
  ∧ eval (query_element env zone el1 sender) st3 = Ok false.
Proof.
  intros HT1 HT2 Hkey Hadd1 Hadd2 Hrm tag1 tag2.
  rewrite add_element_generic in Hadd1, Hadd2. rewrite remove_element_generic in Hrm.
  destruct (add_generic_inv _ _ _ _ _ _ _ _ HT1 Hadd1)
    as (e1 & x1 & c1 & Hent1 & Hcore1 & _ & Hst1).
  destruct (add_generic_inv _ _ _ _ _ _ _ _ HT2 Hadd2)
    as (e2 & x2 & c2 & Hent2 & Hcore2 & _ & Hst2).
  apply remove_generic_inv in Hrm as (e1' & Hent1' & Hcore3 & Hnone & Hglib & _).
  rewrite Hent1 in Hent1'. injection Hent1' as <-.
  assert (Hfw1 : fw st1 = x1) by (by subst st1).
  assert (Hfw2 : fw st2 = x2) by (by subst st2).
  rewrite Hfw1 in Hcore2. rewrite Hfw2 in Hcore3.
  (* the three calls resolve the same zone *)
  destruct (zone_add_inv _ _ _ _ _ Hcore1) as (zn1 & Hcz1 & Hz1 & _ & Hx1).
  destruct (zone_add_inv _ _ _ _ _ Hcore2) as (zn2 & Hcz2 & Hz2 & _ & Hx2).
  destruct (zone_remove_inv _ _ _ _ _ Hcore3) as (zn3 & Hcz3 & _).
  assert (Hz21 : z2 = z1).
  { rewrite Hx1, check_zone_insert in Hcz2 by eauto. congruence. }
  subst z2.
  assert (Hz31 : z3 = z1).
  { rewrite Hx2, check_zone_insert in Hcz3 by eauto.
    rewrite Hx1, check_zone_insert in Hcz3 by eauto. congruence. }
  subst z3.
  (* the elements differ *)
  assert (Hne : e2 ≠ e1).
  { intros ->. apply zone_add_query in Hcore1 as [_ Hq1].
    apply zone_add_query in Hcore2 as [Hq2 _]. congruence. }
  (* the table and the main loop *)
  assert (Htag : timer_of z1 (timeout_key el1) st2 = Some tag2).
  { subst st2. unfold timer_of. fields. rewrite lookup_insert_eq. cbn [mbind option_bind].
    rewrite Hkey, lookup_insert_eq. subst st1. reflexivity. }
  rewrite Htag in Hglib.
  assert (Hsrc2 : sources (glib st2)
    = <[tag2 := (T2, timeout_callback z1 el2 sender)]>
        (<[tag1 := (T1, timeout_callback z1 el1 sender)]> (sources (glib st)))).
  { subst st2 st1. reflexivity. }
  assert (Hq : ∀ el e s, entry_of env el = Ok e →
    eval (query_element env zone el sender) s = Ok (zone_query zone e (fw s))).
  { intros el e s He. unfold eval. rewrite query_element_generic.
    unfold query_generic, mbind, M_bind, lift_result. by rewrite He. }
  split; [done|]. split; [done|]. split; [by rewrite Hsrc2, lookup_insert_eq|].
  rewrite Hglib. unfold without_source. cbn [sources]. rewrite Hsrc2.
  split; [apply lookup_delete_eq|]. split.
  { rewrite lookup_delete_ne, lookup_insert_ne, lookup_insert_eq by (unfold tag2; lia).
    done. }
  split; [by rewrite <- Hkey|].
  destruct (zone_remove_query _ _ _ _ _ Hcore3) as [Hq1 Hother].
  split.
  - rewrite (Hq _ _ _ Hent2), (Hother _ _ Hne).
    by apply zone_add_query in Hcore2 as [_ ->].
  - by rewrite (Hq _ _ _ Hent1), Hq1.
Qed.

End RemoveTimed.

Lemma remove_cancels_the_recorded_timer_witness :
  let st := exec (addPort demo_env "public" "80" "tcp" 2 None) demo in
  remove_element demo_env "" (ElPort "80" "tcp") None st
    = (Ok "public", exec (removePort demo_env "" "80" "tcp" None) st)
  ∧ glib (exec (removePort demo_env "" "80" "tcp" None) st)
    = without_source 1 (glib st).
Proof.
  set (st := exec (addPort demo_env "public" "80" "tcp" 2 None) demo).
  assert (H1 : remove_element demo_env "" (ElPort "80" "tcp") None st
    = (Ok "public", exec (removePort demo_env "" "80" "tcp" None) st))
    by (vm_compute; reflexivity).
  split; [exact H1|].
  exact (proj2 (proj2 (proj2
    (remove_cancels_the_recorded_timer demo_env _ _ _ _ _ _ H1)))).
Defined.

Lemma shared_key_remove_cancels_the_other_witness :
  let st1 := exec (addService demo_env "" "ssh" 5 None) demo in
  let st2 := exec (addProtocol demo_env "" "ssh" 9 None) st1 in
  let st3 := exec (removeService demo_env "" "ssh" None) st2 in
  (0 < 5)%Z ∧ (0 < 9)%Z
  ∧ timeout_key (ElService "ssh") = timeout_key (ElProtocol "ssh")
  ∧ add_element demo_env "" (ElService "ssh") 5 None demo = (Ok "public", st1)
  ∧ add_element demo_env "" (ElProtocol "ssh") 9 None st1 = (Ok "public", st2)
  ∧ remove_element demo_env "" (ElService "ssh") None st2 = (Ok "public", st3)
  ∧ sources (glib st3) !! 2 = None
  ∧ sources (glib st3) !! 1 = Some (5%Z, CbService "public" "ssh")
  ∧ eval (query_element demo_env "" (ElProtocol "ssh") None) st3 = Ok true.
Proof.
  set (st1 := exec (addService demo_env "" "ssh" 5 None) demo).
  set (st2 := exec (addProtocol demo_env "" "ssh" 9 None) st1).
  set (st3 := exec (removeService demo_env "" "ssh" None) st2).
  assert (H1 : (0 < 5)%Z) by lia.
  assert (H2 : (0 < 9)%Z) by lia.
  assert (H3 : timeout_key (ElService "ssh") = timeout_key (ElProtocol "ssh"))
    by reflexivity.
  assert (H4 : add_element demo_env "" (ElService "ssh") 5 None demo = (Ok "public", st1))
    by (vm_compute; reflexivity).
  assert (H5 : add_element demo_env "" (ElProtocol "ssh") 9 None st1 = (Ok "public", st2))
    by (vm_compute; reflexivity).
  assert (H6 : remove_element demo_env "" (ElService "ssh") None st2 = (Ok "public", st3))
    by (vm_compute; reflexivity).
  repeat (split; [assumption|]).
  destruct (shared_key_remove_cancels_the_other demo_env _ _ _ _ _ _ _ _ _ _ _ _ _
              H1 H2 H3 H4 H5 H6) as (_ & _ & _ & Ha & Hb & _ & Hc & _).
  split; [exact Ha|]. split; [exact Hb|exact Hc].
Defined.

(** *** Tracked passthroughs and lockdown *)

Section PassthroughsLockdown.
Variable env : Env.

Lemma accessCheck_None st : accessCheck env None st = (Ok tt, st).
Proof. unfold accessCheck, mbind, M_bind, gets. by destruct (query_lockdown (fw st)). Qed.

Lemma removePassthrough_None ipv args st :
  removePassthrough env ipv args None st =
    match remove_passthrough ipv args (fw st) with
    | Ok (_, x) =>
        (Ok tt, set_signals (signals st ++ [PassthroughRemoved ipv args]) (set_fw x st))
    | Raise err => (Raise err, st)
    end.
Proof.
  unfold removePassthrough, mbind, M_bind. rewrite accessCheck_None.
  unfold lift_fw. by destruct (remove_passthrough ipv args (fw st)) as [[[] x]|err].
Qed.

Lemma remove_each_checks todo : ∀ st,
  checks (for_each todo (λ p, removePassthrough env p.1 p.2 None) st).2 = checks st.
Proof.
  induction todo as [|p todo IH]; intros st; [done|].
  simpl. unfold mbind, M_bind. rewrite removePassthrough_None.
  destruct (remove_passthrough p.1 p.2 (fw st)) as [[[] x]|err]; [|done].
  by rewrite IH.
Qed.

(** [removeAllPassthroughs] is outside the lockdown: it does not call
    [accessCheck] and hands no caller to [removePassthrough]. For a
    caller that [accessCheck] refuses, [removePassthrough] on any one
    tracked passthrough raises and removes nothing, while
    [removeAllPassthroughs] removes them all without one whitelist
    check. *)
Theorem removeAllPassthroughs_is_not_gated sender st e :
  NoDup (get_all_passthroughs (fw st)) →
  (accessCheck env sender st).1 = Raise e →
  (∀ ipv args,
     (removePassthrough env ipv args sender st).1 = Raise e
     ∧ fw (removePassthrough env ipv args sender st).2 = fw st)
  ∧ ∃ st',
      removeAllPassthroughs env sender st = (Ok tt, st')
      ∧ get_all_passthroughs (fw st') = []
      ∧ checks st' = checks st.
Proof.
  intros Hnd Hdenied. split.
  - intros ipv args. unfold removePassthrough, mbind, M_bind.
    destruct (accessCheck_frame env sender st) as [cs Hcs].
    destruct (accessCheck env sender st) as [r s']. simpl in *. subst. done.
  - unfold removeAllPassthroughs, getAllPassthroughs, mbind, M_bind, gets.
    pose proof (remove_each_checks (reverse (get_all_passthroughs (fw st))) st) as Hchecks.
    destruct (remove_each_tracked env (reverse (get_all_passthroughs (fw st))) st)
      as (st' & Hrun & Hpt & _).
    { by rewrite reverse_Permutation. }
    { intros p Hp. rewrite elem_of_reverse in Hp. exact Hp. }
    rewrite Hrun in Hchecks. exists st'. split; [exact Hrun|]. split; [|exact Hchecks].
    unfold get_all_passthroughs in *. rewrite Hpt.
    apply filter_none. intros q Hq Hn. apply Hn. rewrite elem_of_reverse. exact Hq.
Qed.

End PassthroughsLockdown.

Lemma removeAllPassthroughs_is_not_gated_witness :
  let st := set_fw (set_lockdown true (fw demo_direct)) demo_direct in
  NoDup (get_all_passthroughs (fw st))
  ∧ (accessCheck demo_env (Some ":1.5") st).1
    = Raise (FirewallError ACCESS_DENIED "lockdown is enabled")
  ∧ ∃ st',
      removeAllPassthroughs demo_env (Some ":1.5") st = (Ok tt, st')
      ∧ get_all_passthroughs (fw st') = []
      ∧ checks st' = checks st.
Proof.
  set (st := set_fw (set_lockdown true (fw demo_direct)) demo_direct).
  assert (H1 : NoDup (get_all_passthroughs (fw st))).
  { apply (bool_decide_unpack _). vm_compute. exact I. }
  assert (H2 : (accessCheck demo_env (Some ":1.5") st).1
    = Raise (FirewallError ACCESS_DENIED "lockdown is enabled")) by (vm_compute; reflexivity).
  split; [exact H1|]. split; [exact H2|].
  exact (proj2 (removeAllPassthroughs_is_not_gated demo_env (Some ":1.5") st _ H1 H2)).
Defined.

(** *** Runtime to permanent: the errors that leave it *)

Section RuntimeToPermanentErrors.
Context {Store Settings ConfObj : Type} `{!EqDecision Settings}.
Variable cfg : @FirewallDConfig Store Settings ConfObj.
Variable rt : Firewall.



End RuntimeToPermanentErrors.


(** *** Property handling *)

(** On the main interface [GetAll] returns a dict and [Get] answers
    exactly the names of that dict, with the values of that dict; for
    any other name [Get] raises the error of a property that is not
    exported. On any other interface both raise the same
    unknown-interface error. Neither changes the state. *)
Theorem GetAll_lists_what_Get_answers c interface_name name sender st :
  if decide (interface_name = DBUS_INTERFACE_name c) then
    ∃ m,
      GetAll c interface_name sender st = (Ok m, st)
      ∧ Get c interface_name name sender st =
          (match m !! name with
           | Some v => Ok v
           | None => Raise (not_exported name)
           end, st)
  else
    GetAll c interface_name sender st = (Raise (unknown_interface interface_name), st)
    ∧ Get c interface_name name sender st = (Raise (unknown_interface interface_name), st).
Proof.
  unfold GetAll, Get. destruct (decide (interface_name = DBUS_INTERFACE_name c)) as [->|Hne].
  - rewrite !decide_False by (intros H; by apply H).
    eexists. split; [reflexivity|].
    unfold _get_property.
    repeat (destruct (decide (name = _)) as [->|?];
      [rewrite ?lookup_insert_ne by done; rewrite lookup_insert_eq; reflexivity|]).
    rewrite !lookup_insert_ne by congruence. by rewrite lookup_empty.
  - rewrite !decide_True by done. done.
Qed.

(** [Set] never sets anything: it always raises. A caller refused by
    [accessCheck] gets that error; otherwise the error is the
    unknown-interface one for any interface but the main one, and
    "not settable" for every property name. Only the trace of the
    lockdown checks changes. *)
Theorem Set_always_raises env c interface_name property_name sender st :
  ∃ cs,
    Set' env c interface_name property_name sender st =
      (Raise (match (accessCheck env sender st).1 with
              | Raise e => e
              | Ok _ =>
                  if decide (interface_name ≠ DBUS_INTERFACE_name c)
                  then unknown_interface interface_name
                  else not_settable property_name
              end),
       set_checks (checks st ++ cs) st).
Proof.
  destruct (accessCheck_frame env sender st) as [cs Hcs]. exists cs.
  unfold Set', mbind, M_bind.
  destruct (accessCheck env sender st) as [[[]|e] s']; simpl in *; subst; [|done].
  by destruct (decide (interface_name ≠ DBUS_INTERFACE_name c)).
Qed.

(** *** The lockdown check, whatever its outcome *)

(** [accessCheck] never touches the core, the timeout table, the main
    loop or the signals; and with lockdown off it returns at once for
    every caller, without consulting the whitelist. *)
Theorem accessCheck_changes_nothing env sender st :
  fw (accessCheck env sender st).2 = fw st
  ∧ _timeouts (accessCheck env sender st).2 = _timeouts st
  ∧ glib (accessCheck env sender st).2 = glib st
  ∧ signals (accessCheck env sender st).2 = signals st
  ∧ (if query_lockdown (fw st) then True else accessCheck env sender st = (Ok tt, st)).
Proof.
  destruct (accessCheck_frame env sender st) as [cs ->]. repeat split.
  destruct (query_lockdown (fw st)) eqn:Hlock; [done|].
  rewrite accessCheck_run. unfold lockdown_checks. rewrite Hlock. simpl.
  by rewrite set_checks_nil.
Qed.

(** *** Reload *)

(** [reload] and [completeReload] emit [Reloaded] exactly when they
    return normally; when the reload of the core or of the configuration
    objects raises, no signal is emitted, and if it is the configuration
    objects that failed, the core stays reloaded. *)
Theorem Reloaded_only_after_success env complete sender st :
  let m := if (complete : bool) then completeReload env sender else reload env sender in
  match fw_reload env complete (fw st) with
  | Raise e => m st = (Raise e, st)
  | Ok x =>
      match config_reload env x with
      | Raise e => m st = (Raise e, set_fw x st)
      | Ok _ => m st = (Ok tt, set_signals (signals st ++ [Reloaded]) (set_fw x st))
      end
  end.
Proof.
  destruct complete; simpl;
    unfold reload, completeReload, mbind, M_bind, lift_fw, lift_result, gets, emit, modify.
  - destruct (fw_reload env true (fw st)) as [x|e]; [|done]. fields.
    by destruct (config_reload env x) as [[]|e].
  - destruct (fw_reload env false (fw st)) as [x|e]; [|done]. fields.
    by destruct (config_reload env x) as [[]|e].
Qed.

(** *** Active zones *)

Lemma get_zones_elem (x : Firewall) (z : string) :
  z ∈ get_zones x ↔ is_Some (zones x !! z).
Proof.
  unfold get_zones. rewrite list_elem_of_fmap. split.
  - intros [[k zn] [-> Hin]]. apply elem_of_map_to_list in Hin. eauto.
  - intros [zn Hz]. exists (z, zn). split; [done|]. by apply elem_of_map_to_list.
Qed.

Lemma active_zone_step_run zone zn acc st :
  zones (fw st) !! zone = Some zn → zone ≠ "" →
  active_zone_step zone acc st =
    (Ok (if decide (zone_active zn) then <[zone := zone_dict zn]> acc else acc), st).
Proof.
  intros Hz Hne.
  unfold active_zone_step, mbind, M_bind, gets, lift_result,
    list_interfaces, list_sources, check_zone.
  rewrite decide_False by done. rewrite Hz. cbn beta iota.
  rewrite !Hz. cbn [default from_option id].
  unfold zone_active, zone_dict.
  destruct (decide (0 < length (z_interfaces zn) + length (z_sources zn)));
    [|reflexivity].
  destruct (decide (0 < length (z_interfaces zn))),
    (decide (0 < length (z_sources zn))); reflexivity.
Qed.

Lemma active_zones_loop_run st l : ∀ acc,
  (∀ z, z ∈ l → z ≠ "" ∧ is_Some (zones (fw st) !! z)) →
  ∃ m,
    active_zones_loop l acc st = (Ok m, st)
    ∧ ∀ z, m !! z =
        match zones (fw st) !! z with
        | Some zn =>
            if decide (z ∈ l ∧ zone_active zn) then Some (zone_dict zn) else acc !! z
        | None => acc !! z
        end.
Proof.
  induction l as [|z0 l IH]; intros acc Hl.
  - exists acc. split; [done|]. intros z.
    destruct (zones (fw st) !! z); [|done].
    rewrite decide_False; [done|]. intros [Hin _]. by apply elem_of_nil in Hin.
  - destruct (Hl z0) as [Hne [zn0 Hz0]]; [by left|].
    simpl. unfold mbind at 1. unfold M_bind at 1.
    rewrite (active_zone_step_run _ _ _ _ Hz0 Hne).
    destruct (IH (if decide (zone_active zn0) then <[z0 := zone_dict zn0]> acc else acc))
      as (m & Hrun & Hm).
    { intros z Hz. apply Hl. by right. }
    exists m. split; [exact Hrun|]. intros z. rewrite Hm.
    destruct (decide (z = z0)) as [->|Hzz].
    + rewrite Hz0. destruct (decide (zone_active zn0)) as [Hact|Hact].
      * rewrite lookup_insert_eq. rewrite (decide_True (P := z0 ∈ z0 :: l ∧ _)).
        -- by destruct (decide (z0 ∈ l ∧ zone_active zn0)).
        -- split; [by left|done].
      * rewrite !decide_False by tauto. done.
    + assert (Hacc : (if decide (zone_active zn0) then <[z0 := zone_dict zn0]> acc else acc) !! z
                     = acc !! z).
      { destruct (decide (zone_active zn0)); [by rewrite lookup_insert_ne|done]. }
      rewrite Hacc. destruct (zones (fw st) !! z) as [zn|]; [|done].
      apply decide_ext. rewrite elem_of_cons. tauto.
Qed.

Lemma getActiveZones_run sender st :
  zones (fw st) !! "" = None →
  ∃ m,
    getActiveZones sender st = (Ok m, st)
    ∧ ∀ z, m !! z =
        match zones (fw st) !! z with
        | Some zn => if decide (zone_active zn) then Some (zone_dict zn) else None
        | None => None
        end.
Proof.
  intros Hempty. unfold getActiveZones, mbind, M_bind, gets.
  destruct (active_zones_loop_run st (get_zones (fw st)) ∅) as (m & Hrun & Hm).
  { intros z Hz. apply get_zones_elem in Hz. split; [|done].
    intros ->. rewrite Hempty in Hz. by destruct Hz. }
  exists m. split; [exact Hrun|]. intros z. rewrite Hm, lookup_empty.
  destruct (zones (fw st) !! z) as [zn|] eqn:Hz; [|done].
  apply decide_ext. split; [tauto|]. intros Hact. split; [|done].
  apply get_zones_elem. eauto.
Qed.

Lemma zone_dict_lookup zn :
  zone_dict zn !! "interfaces" = nonempty (z_interfaces zn)
  ∧ zone_dict zn !! "sources" = nonempty (z_sources zn)
  ∧ ∀ k, k ≠ "interfaces" → k ≠ "sources" → zone_dict zn !! k = None.
Proof.
  unfold zone_dict.
  destruct (z_interfaces zn) as [|i ifs], (z_sources zn) as [|s srcs];
    cbn [length nonempty]; repeat case_decide; try lia;
    (split; [|split; [|intros k Hk1 Hk2]]);
    rewrite ?lookup_insert_eq, ?lookup_insert_ne, ?lookup_insert_eq, ?lookup_empty by done;
    reflexivity.
Qed.

(** [getActiveZones] returns an entry for exactly the zones that have an
    interface or a source. The entry of a zone has the key
    [interfaces] exactly when the zone has interfaces, then with the
    list of them, the key [sources] likewise, and no other key. The
    state is left as it is. *)
Theorem getActiveZones_lists_the_bound_zones sender st :
  zones (fw st) !! "" = None →
  ∃ m,
    getActiveZones sender st = (Ok m, st)
    ∧ ∀ z,
        match zones (fw st) !! z, m !! z with
        | Some zn, Some d =>
            (z_interfaces zn ≠ [] ∨ z_sources zn ≠ [])
            ∧ d !! "interfaces" = nonempty (z_interfaces zn)
            ∧ d !! "sources" = nonempty (z_sources zn)
            ∧ ∀ k, k ≠ "interfaces" → k ≠ "sources" → d !! k = None
        | Some zn, None => z_interfaces zn = [] ∧ z_sources zn = []
        | None, Some _ => False
        | None, None => True
        end.
Proof.
  intros Hempty. destruct (getActiveZones_run sender st Hempty) as (m & Hrun & Hm).
  exists m. split; [exact Hrun|]. intros z. rewrite Hm.
  destruct (zones (fw st) !! z) as [zn|]; [|done].
  destruct (decide (zone_active zn)) as [Hact|Hact]; unfold zone_active in Hact.
  - split; [|apply zone_dict_lookup].
    destruct (z_interfaces zn); [|by left]. destruct (z_sources zn); [|by right].
    simpl in Hact. lia.
  - destruct (z_interfaces zn), (z_sources zn); simpl in Hact; try lia. done.
Qed.

Lemma get_zone_of_interface_Some interface x z :
  get_zone_of_interface interface x = Some z →
  ∃ zn, zones x !! z = Some zn ∧ interface ∈ z_interfaces zn.
Proof.
  unfold get_zone_of_interface.
  destruct (find _ (map_to_list (zones x))) as [[k zn]|] eqn:Hfind; [|done].
  intros [= <-]. apply find_some in Hfind as [Hin Hb].
  exists zn. split.
  - apply elem_of_map_to_list. by apply list_elem_of_In.
  - by apply bool_decide_eq_true in Hb.
Qed.

Lemma get_zone_of_interface_None interface x z zn :
  get_zone_of_interface interface x = None →
  zones x !! z = Some zn → interface ∉ z_interfaces zn.
Proof.
  unfold get_zone_of_interface.
  destruct (find _ (map_to_list (zones x))) as [[k zn']|] eqn:Hfind; [done|].
  intros _ Hz Hin.
  pose proof (find_none _ _ Hfind (z, zn)) as Hnone.
  cbn [snd] in Hnone. rewrite bool_decide_eq_false in Hnone. apply Hnone; [|done].
  apply list_elem_of_In. by apply elem_of_map_to_list.
Qed.

(** [getZoneOfInterface] never raises. When it returns a zone name,
    [getActiveZones] lists that zone with the interface among its
    [interfaces]; when it returns the empty string, no zone lists the
    interface. *)
Theorem getZoneOfInterface_agrees_with_getActiveZones interface sender st :
  zones (fw st) !! "" = None →
  ∃ z m,
    getZoneOfInterface interface sender st = (Ok z, st)
    ∧ getActiveZones sender st = (Ok m, st)
    ∧ if decide (z = "") then
        ∀ z' d l, m !! z' = Some d → d !! "interfaces" = Some l → interface ∉ l
      else
        ∃ d l, m !! z = Some d ∧ d !! "interfaces" = Some l ∧ interface ∈ l.
Proof.
  intros Hempty. destruct (getActiveZones_run sender st Hempty) as (m & Hrun & Hm).
  unfold getZoneOfInterface, mbind, M_bind, gets.
  destruct (get_zone_of_interface interface (fw st)) as [z|] eqn:Hzoi.
  - destruct (get_zone_of_interface_Some _ _ _ Hzoi) as (zn & Hz & Hin).
    assert (Hne : z ≠ "") by (intros ->; congruence).
    rewrite decide_True by done. exists z, m.
    split; [done|]. split; [exact Hrun|]. rewrite decide_False by done.
    exists (zone_dict zn), (z_interfaces zn). rewrite Hm, Hz.
    assert (Hact : zone_active zn).
    { unfold zone_active. destruct (z_interfaces zn); [by apply elem_of_nil in Hin|].
      simpl. lia. }
    rewrite decide_True by done. split; [done|]. split; [|done].
    destruct (zone_dict_lookup zn) as [-> _].
    destruct (z_interfaces zn); [by apply elem_of_nil in Hin|done].
  - exists "", m. split; [done|]. split; [exact Hrun|]. rewrite decide_True by done.
    intros z' d l Hd Hl. rewrite Hm in Hd.
    destruct (zones (fw st) !! z') as [zn|] eqn:Hz; [|done].
    destruct (decide (zone_active zn)); [|done]. injection Hd as <-.
    destruct (zone_dict_lookup zn) as [Hi _]. rewrite Hi in Hl.
    destruct (z_interfaces zn) as [|i ifs] eqn:Hifs; [done|]. injection Hl as <-.
    rewrite <- Hifs. by eapply get_zone_of_interface_None.
Qed.

Lemma getActiveZones_lists_the_bound_zones_witness :
  zones (fw demo) !! "" = None
  ∧ ∃ m, getActiveZones None demo = (Ok m, demo).
Proof.
  assert (H1 : zones (fw demo) !! "" = None) by (vm_compute; reflexivity).
  split; [exact H1|].
  destruct (getActiveZones_lists_the_bound_zones None demo H1) as (m & Hrun & _).
  exists m. exact Hrun.
Defined.

Lemma getZoneOfInterface_agrees_with_getActiveZones_witness :
  zones (fw demo) !! "" = None
  ∧ ∃ z m, getZoneOfInterface "eth0" None demo = (Ok z, demo)
           ∧ getActiveZones None demo = (Ok m, demo).
Proof.
  assert (H1 : zones (fw demo) !! "" = None) by (vm_compute; reflexivity).
  split; [exact H1|].
  destruct (getZoneOfInterface_agrees_with_getActiveZones "eth0" None demo H1)
    as (z & m & Hz & Hm & _).
  exists z, m. split; [exact Hz|exact Hm].
Defined.

(** [getZoneOfSource] never raises. When it returns a zone name,
    [getActiveZones] lists that zone with the source among its
    [sources]; when it returns the empty string, no zone lists the
    source. *)
Theorem getZoneOfSource_agrees_with_getActiveZones source sender st :
  zones (fw st) !! "" = None →
  ∃ z m,
    getZoneOfSource source sender st = (Ok z, st)
    ∧ getActiveZones sender st = (Ok m, st)
    ∧ if decide (z = "") then
        ∀ z' d l, m !! z' = Some d → d !! "sources" = Some l → source ∉ l
      else
        ∃ d l, m !! z = Some d ∧ d !! "sources" = Some l ∧ source ∈ l.
Proof.
  intros Hempty. destruct (getActiveZones_run sender st Hempty) as (m & Hrun & Hm).
  unfold getZoneOfSource, mbind, M_bind, gets, get_zone_of_source.
  destruct (find _ (map_to_list (zones (fw st)))) as [[z zn]|] eqn:Hfind; cbn [fmap option_fmap option_map fst].
  - apply find_some in Hfind as [Hin Hb].
    apply list_elem_of_In, elem_of_map_to_list in Hin.
    cbn [snd] in Hb. apply bool_decide_eq_true in Hb.
    assert (Hne : z ≠ "") by (intros ->; congruence).
    rewrite decide_True by done. exists z, m.
    split; [done|]. split; [exact Hrun|]. rewrite decide_False by done.
    exists (zone_dict zn), (z_sources zn). rewrite Hm, Hin.
    assert (Hact : zone_active zn).
    { unfold zone_active. destruct (z_sources zn); [by apply elem_of_nil in Hb|].
      simpl. lia. }
    rewrite decide_True by done. split; [done|]. split; [|done].
    destruct (zone_dict_lookup zn) as (_ & -> & _).
    destruct (z_sources zn); [by apply elem_of_nil in Hb|done].
  - exists "", m. split; [done|]. split; [exact Hrun|]. rewrite decide_True by done.
    intros z' d l Hd Hl. rewrite Hm in Hd.
    destruct (zones (fw st) !! z') as [zn|] eqn:Hz; [|done].
    destruct (decide (zone_active zn)); [|done]. injection Hd as <-.
    destruct (zone_dict_lookup zn) as (_ & Hs & _). rewrite Hs in Hl.
    destruct (z_sources zn) as [|s srcs] eqn:Hsrcs; [done|]. injection Hl as <-.
    rewrite <- Hsrcs. intros Hin.
    pose proof (find_none _ _ Hfind (z', zn)) as Hnone.
    cbn [snd] in Hnone. rewrite bool_decide_eq_false in Hnone. apply Hnone; [|done].
    apply list_elem_of_In. by apply elem_of_map_to_list.
Qed.

Lemma getZoneOfSource_agrees_with_getActiveZones_witness :
  zones (fw demo) !! "" = None
  ∧ ∃ z m, getZoneOfSource "10.0.0.0/8" None demo = (Ok z, demo)
           ∧ getActiveZones None demo = (Ok m, demo).
Proof.
  assert (H1 : zones (fw demo) !! "" = None) by (vm_compute; reflexivity).
  split; [exact H1|].
  destruct (getZoneOfSource_agrees_with_getActiveZones "10.0.0.0/8" None demo H1)
    as (z & m & Hz & Hm & _).
  exists z, m. split; [exact Hz|exact Hm].
Defined.

(** *** Lockdown *)

Lemma set_lockdown_restore x :
  lockdown x = false → set_lockdown false (set_lockdown true x) = x.
Proof. destruct x. unfold set_lockdown. simpl. by intros ->. Qed.

(** From a daemon with lockdown off, [enableLockdown] succeeds for
    every caller, switches lockdown on and emits [LockdownEnabled]. A
    following [disableLockdown] by the same caller then depends on the
    whitelist: a caller that one of the four identity checks lets
    through gets the core back as it was and [LockdownDisabled] is
    emitted; a caller that none lets through is refused with
    [ACCESS_DENIED], lockdown stays on and nothing is emitted, so the
    caller has locked itself out. *)
Theorem enableLockdown_may_lock_out_its_caller env sender d :
  query_lockdown (fw (daemon d)) = false →
  ∃ d1 d2,
    enableLockdown env (Some sender) d = (Ok tt, d1)
    ∧ queryLockdown (Some sender) d1 = (Ok true, d1)
    ∧ policies_signals d1 = policies_signals d ++ [LockdownEnabled]
    ∧ if (consult (identity_checks env sender) (fw (daemon d))).2 then
        disableLockdown env (Some sender) d1 = (Ok tt, d2)
        ∧ fw (daemon d2) = fw (daemon d)
        ∧ policies_signals d2 = policies_signals d ++ [LockdownEnabled; LockdownDisabled]
      else
        disableLockdown env (Some sender) d1 =
          (Raise (FirewallError ACCESS_DENIED "lockdown is enabled"), d2)
        ∧ queryLockdown (Some sender) d2 = (Ok true, d2)
        ∧ policies_signals d2 = policies_signals d1.
Proof.
  intros Hlock. destruct d as [st ps]. cbn [daemon policies_signals] in *.
  assert (He : enableLockdown env (Some sender) {| daemon := st; policies_signals := ps |}
    = (Ok tt, {| daemon := set_fw (set_lockdown true (fw st)) st;
                 policies_signals := ps ++ [LockdownEnabled] |})).
  { unfold enableLockdown, mbind, D_bind, on_daemon, emit_policies.
    rewrite accessCheck_run. unfold lockdown_checks.
    cbn [daemon policies_signals]. rewrite Hlock.
    cbn [fst snd]. rewrite set_checks_nil.
    unfold lift_fw, enable_lockdown. reflexivity. }
  rewrite He.
  set (st1 := set_fw (set_lockdown true (fw st)) st).
  assert (Hacc : accessCheck env (Some sender) st1 =
    let r := consult (identity_checks env sender) (fw st) in
    (if r.2 then Ok tt else Raise (FirewallError ACCESS_DENIED "lockdown is enabled"),
     set_checks (checks st1 ++ r.1) st1)).
  { rewrite accessCheck_run. unfold lockdown_checks, st1. destruct st.
    cbn [fw set_fw query_lockdown set_lockdown lockdown].
    by rewrite (consult_whitelist _ fw0 (set_lockdown true fw0)). }
  cbv zeta in Hacc.
  destruct ((consult (identity_checks env sender) (fw st)).2) eqn:Hc;
    (eexists _, _; split; [reflexivity|]; split; [by destruct st|];
     split; [reflexivity|]).
  - unfold disableLockdown, mbind, D_bind, on_daemon, emit_policies.
    cbn [daemon policies_signals]. rewrite Hacc.
    cbn [fst snd daemon policies_signals].
    unfold lift_fw, disable_lockdown.
    split; [reflexivity|]. cbn [daemon policies_signals]. split.
    + unfold st1. destruct st. cbn [fw set_fw set_checks].
      by apply set_lockdown_restore.
    + by rewrite <- (assoc_L (++)).
  - unfold disableLockdown, mbind, D_bind, on_daemon.
    cbn [daemon policies_signals]. rewrite Hacc.
    cbn [fst snd daemon policies_signals].
    split; [reflexivity|]. split; [|reflexivity].
    unfold queryLockdown, on_daemon, gets. cbn [fst snd daemon policies_signals].
    unfold st1. by destruct st.
Qed.

Lemma enableLockdown_may_lock_out_its_caller_witness :
  query_lockdown (fw demo) = false
  ∧ ∃ d1, enableLockdown demo_env (Some ":1.5")
            {| daemon := demo; policies_signals := [] |} = (Ok tt, d1)
          ∧ policies_signals d1 = [LockdownEnabled].
Proof.
  assert (H1 : query_lockdown (fw demo) = false) by reflexivity.
  split; [exact H1|].
  destruct (enableLockdown_may_lock_out_its_caller demo_env ":1.5"
              {| daemon := demo; policies_signals := [] |} H1)
    as (d1 & d2 & He & _ & Hs & _).
  exists d1. split; [exact He|exact Hs].
Defined.
